(** * Vylo backend: budget, income, savings and chat orchestration

    A shallow embedding of the Express route handlers of the personal-finance
    backend (income.js, budgets.js, savings.js, entries.js, chat.js) together
    with the properties stated about them.

    Conventions of the embedding.
    - In the handlers' own modules a JavaScript number is an exact integer
      ([Z], an amount in minor currency units). The yearly savings route is
      modelled a second time over an arithmetic given as a parameter
      ([SavingsArith]), of which IEEE 754 binary64 is an instance: what is
      stated about sums of amounts is stated there.
    - A JSON object used as a dictionary is a [gmap string _]; a field that
      is absent from a request body ([undefined]) is [None].
    - A MongoDB collection keyed by [userId] is a [gmap string _] of user
      documents; the driver is assumed to answer (no connection failures).
    - A handler is a function from the request and the collection to the
      HTTP outcome and the collection afterwards. *)

From stdpp Require Import base strings gmap list pretty.
From Stdlib Require Import ZArith Lia Ascii String.
From Stdlib Require PrimFloat.

#[local] Open Scope Z_scope.
#[local] Set Warnings "-register-all".

(** ** JavaScript values as the handlers see them *)

Module Js.

Inductive json :=
  | JNull
  | JBool (b : bool)
  | JNum (n : Z)
  | JStr (s : string)
  | JArr (l : list json)
  | JObj (m : gmap string json).

(** [typeof v]; [None] is [undefined]. *)
Definition typeof (v : option json) : string :=
  match v with
  | None => "undefined"
  | Some JNull => "object"
  | Some (JBool _) => "boolean"
  | Some (JNum _) => "number"
  | Some (JStr _) => "string"
  | Some (JArr _) => "object"
  | Some (JObj _) => "object"
  end.

(** The truthiness used by [!v], [v || d] and [if (v)]. *)
Definition truthy (v : option json) : bool :=
  match v with
  | None => false
  | Some JNull => false
  | Some (JBool b) => b
  | Some (JNum n) => negb (n =? 0)
  | Some (JStr s) => negb (String.eqb s "")
  | Some (JArr _) => true
  | Some (JObj _) => true
  end.

(** [\d] *)
Definition isDigit (c : ascii) : bool :=
  let n := nat_of_ascii c in ((48 <=? n) && (n <=? 57))%nat.

(** [/^\d{4}-\d{2}$/.test(s)] *)
Definition isMonth (s : string) : bool :=
  match list_ascii_of_string s with
  | [y1; y2; y3; y4; dash; m1; m2] =>
      forallb isDigit [y1; y2; y3; y4; m1; m2] && Ascii.eqb dash "-"
  | _ => false
  end.

(** [/^\d{4}-\d{2}-\d{2}$/.test(s)] *)
Definition isDate (s : string) : bool :=
  match list_ascii_of_string s with
  | [y1; y2; y3; y4; dash1; m1; m2; dash2; d1; d2] =>
      forallb isDigit [y1; y2; y3; y4; m1; m2; d1; d2]
      && Ascii.eqb dash1 "-" && Ascii.eqb dash2 "-"
  | _ => false
  end.

(** [/^\d{4}$/.test(s)] *)
Definition isYear (s : string) : bool :=
  match list_ascii_of_string s with
  | [y1; y2; y3; y4] => forallb isDigit [y1; y2; y3; y4]
  | _ => false
  end.

(** [Object.values(o).reduce((sum, amount) => sum + amount, 0)] *)
Definition sumValues (o : gmap string Z) : Z :=
  map_fold (λ _ amount sum, sum + amount) 0 o.

(** What a handler does with a request. [Thrown] is an exception that
    escapes the handler before any response is written. *)
Inductive Outcome (E A : Type) :=
  | Replied (status : nat) (payload : A)
  | Failed (status : nat) (error : E)
  | Thrown.
Arguments Replied {E A} status payload.
Arguments Failed {E A} status error.
Arguments Thrown {E A}.

Definition statusOf {E A} (o : Outcome E A) : option nat :=
  match o with
  | Replied s _ => Some s
  | Failed s _ => Some s
  | Thrown => None
  end.

Definition payloadOf {E A} (o : Outcome E A) : option A :=
  match o with
  | Replied _ payload => Some payload
  | _ => None
  end.

End Js.

(** ** /api/v1/income *)

Module Income.
Import Js.

Record IncomeRec := mkIncome {
  total : Z;
  sources : gmap string Z;
  updatedAt : nat
}.

(** The [user_income] collection: [userId] to the document's [income]
    field, itself a dictionary from month to record. *)
Abbreviation IncomeDb := (gmap string (gmap string IncomeRec)).

Inductive Error :=
  | MonthAndTotalRequired
  | SourcesMustBeObject
  | SourceMustBeNonNegative
  | SourcesExceedDeclared (sourcesTotal declared : Z)
  | MonthFormat
  | EitherTotalOrSources
  | TotalMustBeNonNegative
  | NoIncomeRecordForMonth
  | ExistingSourcesExceedNew (existingSourcesTotal newTotal : Z)
  | SourcesExceedExisting (sourcesTotal existingTotal : Z)
  | NoIncomeRecordsForUser.

Inductive Deleted := IncomeRecordDeleted.

(** [typeof value !== 'number' || value < 0], negated *)
Definition sourceOk (value : json) : bool :=
  match value with JNum n => 0 <=? n | _ => false end.

(** The loop over [Object.entries(sources)] that rejects the first value
    that is not a non-negative number. *)
Definition sourcesOk (o : gmap string json) : bool :=
  bool_decide (map_Forall (λ _ value, sourceOk value = true) o).

Definition amountOf (value : json) : Z :=
  match value with JNum n => n | _ => 0 end.

(** The object once every value is known to be a number. *)
Definition amounts (o : gmap string json) : gmap string Z := amountOf <$> o.

(** The shortfall rule shared by every write path:
    reject when the sources exceed the total, add [miscellaneous] when they
    fall short, keep them when they match.
    [{ ...sources, miscellaneous: miscAmount }] is an insertion. *)
Definition withMiscellaneous (srcs : gmap string Z) (tot : Z) : gmap string Z :=
  let sourcesTotal := sumValues srcs in
  if sourcesTotal <? tot
  then <["miscellaneous" := tot - sourcesTotal]> srcs
  else srcs.

(** POST / *)
Definition setIncome (now : nat) (userId : string)
    (reqMonth reqTotal reqSources : option json) (db : IncomeDb)
  : Outcome Error IncomeRec * IncomeDb :=
  match reqMonth, reqTotal with
  | Some (JStr m), Some (JNum t) =>
      if negb (isMonth m) || (t <? 0) then (Failed 400 MonthAndTotalRequired, db)
      else
        let store finalSources :=
          let incomeData := mkIncome t finalSources now in
          (Replied 201 incomeData,
           <[userId := <[m := incomeData]> (default ∅ (db !! userId))]> db) in
        match reqSources with
        | None => store {["main" := t]}
        | Some (JObj o) =>
            if negb (sourcesOk o) then (Failed 400 SourceMustBeNonNegative, db)
            else
              let sourcesTotal := sumValues (amounts o) in
              if t <? sourcesTotal
              then (Failed 400 (SourcesExceedDeclared sourcesTotal t), db)
              else store (withMiscellaneous (amounts o) t)
        | Some JNull => (Thrown, db)
        | Some _ => (Failed 400 SourcesMustBeObject, db)
        end
  | _, _ => (Failed 400 MonthAndTotalRequired, db)
  end.

(** The validation of the body of PUT /:month, before the store is read.
    [inl] is the early return. *)
Definition checkUpdateBody (month : string) (reqTotal reqSources : option json)
  : Outcome Error IncomeRec + (option Z * option (gmap string Z)) :=
  if negb (isMonth month) then inl (Failed 400 MonthFormat)
  else if negb (truthy reqTotal) && negb (truthy reqSources)
  then inl (Failed 400 EitherTotalOrSources)
  else
    match reqTotal with
    | Some (JNum t) =>
        if t <? 0 then inl (Failed 400 TotalMustBeNonNegative)
        else
          match reqSources with
          | None => inr (Some t, None)
          | Some (JObj o) =>
              if negb (sourcesOk o) then inl (Failed 400 SourceMustBeNonNegative)
              else inr (Some t, Some (amounts o))
          | Some JNull => inl Thrown
          | Some _ => inl (Failed 400 SourcesMustBeObject)
          end
    | Some _ => inl (Failed 400 TotalMustBeNonNegative)
    | None =>
        match reqSources with
        | None => inl (Failed 400 EitherTotalOrSources)
        | Some (JObj o) =>
            if negb (sourcesOk o) then inl (Failed 400 SourceMustBeNonNegative)
            else inr (None, Some (amounts o))
        | Some JNull => inl Thrown
        | Some _ => inl (Failed 400 SourcesMustBeObject)
        end
    end.

(** PUT /:month *)
Definition updateIncome (now : nat) (userId : string) (month : string)
    (reqTotal reqSources : option json) (db : IncomeDb)
  : Outcome Error IncomeRec * IncomeDb :=
  match checkUpdateBody month reqTotal reqSources with
  | inl early => (early, db)
  | inr (tot, srcs) =>
      match db !! userId ≫= (.!! month) with
      | None => (Failed 404 NoIncomeRecordForMonth, db)
      | Some existingIncome =>
          let finalTotal := default existingIncome.(total) tot in
          let persist finalSources :=
            (Replied 200 (mkIncome finalTotal finalSources now),
             <[userId := <[month := mkIncome finalTotal finalSources now]>
                           (default ∅ (db !! userId))]> db) in
          match tot, srcs with
          | Some t, Some s =>
              let sourcesTotal := sumValues s in
              if t <? sourcesTotal
              then (Failed 400 (SourcesExceedDeclared sourcesTotal t), db)
              else persist (withMiscellaneous s t)
          | Some t, None =>
              let existingSourcesTotal := sumValues existingIncome.(sources) in
              if t <? existingSourcesTotal
              then (Failed 400 (ExistingSourcesExceedNew existingSourcesTotal t), db)
              else persist (withMiscellaneous existingIncome.(sources) t)
          | None, Some s =>
              let sourcesTotal := sumValues s in
              if finalTotal <? sourcesTotal
              then (Failed 400 (SourcesExceedExisting sourcesTotal finalTotal), db)
              else persist (withMiscellaneous s finalTotal)
          | None, None => persist existingIncome.(sources)
          end
      end
  end.

(** DELETE /:month: [$unset] of [income.<month>] in the user's document;
    [matchedCount] is 1 exactly when the user has a document. *)
Definition deleteIncome (userId : string) (month : string) (db : IncomeDb)
  : Outcome Error Deleted * IncomeDb :=
  if negb (isMonth month) then (Failed 400 MonthFormat, db)
  else
    match db !! userId with
    | None => (Failed 404 NoIncomeRecordsForUser, db)
    | Some income =>
        (Replied 200 IncomeRecordDeleted, <[userId := delete month income]> db)
    end.

(** The record stored for a user and month. *)
Definition stored (db : IncomeDb) (userId month : string) : option IncomeRec :=
  db !! userId ≫= (.!! month).

End Income.

(** ** /api/v1/entries *)

Module Entries.
Import Js.

(** One recorded expense line, as [add-user-entries] lets it through:
    [code] and [item] are strings, [amount] is a number, [confidence] is a
    number when present. [id] is whatever the client sent. *)
Record Entry := mkEntry {
  id : option json;
  code : string;
  amount : Z;
  item : string;
  confidence : option Z
}.

(** The value stored under a day: the object holding the [entries] array. *)
Record DayData := mkDay { entries : option (list Entry) }.

(** The [user_entries] collection: [userId], then month ([YYYY-MM]), then
    day ([DD]). *)
Abbreviation EntriesDb := (gmap string (gmap string (gmap string DayData))).

Inductive Error :=
  | EntriesArrayRequired
  | DateRequired
  | InvalidEntrySchema.

Inductive Added := EntriesAdded.

(** The condition of the schema check, negated: the entry is let through. *)
Definition entrySchemaOk (o : gmap string json) : bool :=
  String.eqb (typeof (o !! "code")) "string"
  && String.eqb (typeof (o !! "amount")) "number"
  && String.eqb (typeof (o !! "item")) "string"
  && (match o !! "confidence" with
      | None => true
      | Some c => String.eqb (typeof (Some c)) "number"
      end).

Inductive Checked := AllValid | Invalid | TypeError.

(** [for (const entry of entries)]: the first entry that fails the schema
    ends the request with 400; [null] passes [typeof entry !== 'object']
    and then [entry.code] throws. An array is an object without the
    fields; any other value is not an object. *)
Fixpoint checkEntries (entries : list json) : Checked :=
  match entries with
  | [] => AllValid
  | JObj o :: rest => if entrySchemaOk o then checkEntries rest else Invalid
  | JNull :: _ => TypeError
  | _ :: _ => Invalid
  end.

(** The object as a typed record. *)
Definition toEntry (entry : json) : option Entry :=
  match entry with
  | JObj o =>
      match o !! "code", o !! "amount", o !! "item" with
      | Some (JStr c), Some (JNum a), Some (JStr i) =>
          Some (mkEntry (o !! "id") c a i
                  (match o !! "confidence" with Some (JNum k) => Some k | _ => None end))
      | _, _, _ => None
      end
  | _ => None
  end.

Definition entriesAt (db : EntriesDb) (userId yearMonth day : string) : list Entry :=
  default [] (((db !! userId ≫= (.!! yearMonth)) ≫= (.!! day)) ≫= entries).

(** [$push: { "<yearMonth>.<day>.entries": { $each: entries } }] with
    [upsert: true]. *)
Definition pushEntries (userId yearMonth day : string) (new : list Entry)
    (db : EntriesDb) : EntriesDb :=
  let doc := default ∅ (db !! userId) in
  let monthData := default ∅ (doc !! yearMonth) in
  <[userId := <[yearMonth :=
      <[day := mkDay (Some (entriesAt db userId yearMonth day ++ new))]> monthData]> doc]> db.

(** POST /add-user-entries *)
Definition addUserEntries (userId : string) (reqEntries reqDate : option json)
    (db : EntriesDb) : Outcome Error Added * EntriesDb :=
  match reqEntries with
  | Some (JArr (first :: others)) =>
      match reqDate with
      | Some (JStr date) =>
          if negb (isDate date) then (Failed 400 DateRequired, db)
          else
            match checkEntries (first :: others) with
            | Invalid => (Failed 400 InvalidEntrySchema, db)
            | TypeError => (Thrown, db)
            | AllValid =>
                let yearMonth := substring 0 7 date in
                let day := substring 8 2 date in
                (Replied 201 EntriesAdded,
                 pushEntries userId yearMonth day
                   (omap toEntry (first :: others)) db)
            end
      | _ => (Failed 400 DateRequired, db)
      end
  | _ => (Failed 400 EntriesArrayRequired, db)
  end.

(** An entry that the schema check lets through. *)
Definition schemaValid (entry : json) : Prop :=
  ∃ o, entry = JObj o ∧ entrySchemaOk o = true.

(** The gate in the words of the specification: a request with a negative
    amount in it is rejected and nothing is persisted. *)
Definition rejects_negative_amounts (userId : string) (submitted : list json)
    (reqDate : option json) (db : EntriesDb) : Prop :=
  (∃ o n, JObj o ∈ submitted ∧ o !! "amount" = Some (JNum n) ∧ n < 0) →
  (∃ status err,
     (addUserEntries userId (Some (JArr submitted)) reqDate db).1 = Failed status err)
  ∧ (addUserEntries userId (Some (JArr submitted)) reqDate db).2 = db.

(** [Object.values(monthlyEntries)] followed by the inner [forEach]: every
    entry of the month. *)
Definition monthEntries (db : EntriesDb) (userId month : string) : list Entry :=
  let monthlyEntries := default ∅ (db !! userId ≫= (.!! month)) in
  List.concat ((λ dayData, default [] (entries dayData)) <$> (map_to_list monthlyEntries).*2).

End Entries.

(** ** /api/v1/budgets *)

Module Budgets.
Import Js Entries.

Record Budget := mkBudget {
  total : Z;
  categories : gmap string Z
}.

(** An element of [data/categories.json]. *)
Record Category := mkCategory {
  cat_code : string;
  parent : option string
}.

Abbreviation BudgetsDb := (gmap string (gmap string Budget)).

Inductive Error :=
  | MonthFormat
  | NoBudgetForMonth.

Record Remaining := mkRemaining {
  month : string;
  originalBudget : Budget;
  totalSpent : Z;
  totalRemaining : Z;
  remainingBudgets : gmap string Z;
  expensesByCategory : gmap string Z
}.

(** [if (monthlyBudget.categories[code])]: the allocation is there and is
    not 0. *)
Definition hasBudget (monthlyBudget : Budget) (categoryCode : string) : bool :=
  match monthlyBudget.(categories) !! categoryCode with
  | Some allocated => negb (allocated =? 0)
  | None => false
  end.

(** [categories.find(cat => cat.code === categoryCode)?.parent] *)
Definition parentOf (taxonomy : list Category) (categoryCode : string) : option string :=
  List.find (λ cat, String.eqb cat.(cat_code) categoryCode) taxonomy ≫= parent.

(** [(expensesByCategory[key] || 0) + amount] written back under [key]. *)
Definition addTo (key : string) (amount : Z) (expenses : gmap string Z) : gmap string Z :=
  <[key := default 0 (expenses !! key) + amount]> expenses.

(** The body of the inner [forEach]: the running pair is
    [(expensesByCategory, miscellaneousExpenses)]. [entry.amount || 0] is
    the amount itself, a stored amount being a number; [parentCategory &&]
    turns away a missing parent and the empty string. *)
Definition accumulate (taxonomy : list Category) (monthlyBudget : Budget)
    (acc : gmap string Z * Z) (entry : Entry) : gmap string Z * Z :=
  let categoryCode := entry.(code) in
  let amount := entry.(amount) in
  if hasBudget monthlyBudget categoryCode
  then (addTo categoryCode amount acc.1, acc.2)
  else
    match parentOf taxonomy categoryCode with
    | Some parentCategory =>
        if negb (String.eqb parentCategory "") && hasBudget monthlyBudget parentCategory
        then (addTo parentCategory amount acc.1, acc.2)
        else (acc.1, acc.2 + amount)
    | None => (acc.1, acc.2 + amount)
    end.

Definition spend (taxonomy : list Category) (monthlyBudget : Budget)
    (monthly : list Entry) : gmap string Z * Z :=
  foldl (accumulate taxonomy monthlyBudget) (∅, 0) monthly.

(** The arithmetic after the loop. *)
Definition reconcile (taxonomy : list Category) (month : string)
    (monthlyBudget : Budget) (monthly : list Entry) : Remaining :=
  let '(expenses, miscellaneousExpenses) := spend taxonomy monthlyBudget monthly in
  let totalAllocated := sumValues monthlyBudget.(categories) in
  let miscellaneousBudget := monthlyBudget.(total) - totalAllocated in
  let perCategory :=
    map_imap (λ categoryCode budgetAmount,
                Some (budgetAmount - default 0 (expenses !! categoryCode)))
             monthlyBudget.(categories) in
  let totalSpent := sumValues expenses + miscellaneousExpenses in
  mkRemaining month monthlyBudget totalSpent
    (monthlyBudget.(total) - totalSpent)
    (<["MIS" := miscellaneousBudget - miscellaneousExpenses]> perCategory)
    (<["MIS" := miscellaneousExpenses]> expenses).

(** GET /:month/remaining *)
Definition remaining (taxonomy : list Category) (userId month : string)
    (budgets : BudgetsDb) (entriesDb : EntriesDb) : Outcome Error Remaining :=
  if negb (isMonth month) then Failed 400 MonthFormat
  else
    match budgets !! userId ≫= (.!! month) with
    | None => Failed 404 NoBudgetForMonth
    | Some monthlyBudget =>
        Replied 200 (reconcile taxonomy month monthlyBudget
                       (monthEntries entriesDb userId month))
    end.

(** The bucket of an entry in the words of the specification: the code
    itself when it is a key of the categories, else its taxonomy parent
    when that is a key, else the miscellaneous bucket ([None]). *)
Definition bucket_spec (taxonomy : list Category) (monthlyBudget : Budget)
    (categoryCode : string) : option string :=
  if decide (is_Some (monthlyBudget.(categories) !! categoryCode))
  then Some categoryCode
  else
    match parentOf taxonomy categoryCode with
    | Some parentCategory =>
        if decide (is_Some (monthlyBudget.(categories) !! parentCategory))
        then Some parentCategory
        else None
    | None => None
    end.

(** Accumulation into the bucket named by the specification. *)
Definition accumulate_spec (taxonomy : list Category) (monthlyBudget : Budget)
    (acc : gmap string Z * Z) (entry : Entry) : gmap string Z * Z :=
  match bucket_spec taxonomy monthlyBudget entry.(code) with
  | Some key => (addTo key entry.(amount) acc.1, acc.2)
  | None => (acc.1, acc.2 + entry.(amount))
  end.

End Budgets.

(** ** /api/v1/savings

    The rate and average fields of the responses (floating-point division,
    [toFixed], [Math.round]) are not part of the model. *)

Module Savings.
Import Js.

Inductive Error :=
  | YearFormat
  | FailedToCalculate.

Record MonthData := mkMonthData {
  month : string;
  income : Z;
  expenses : Z;
  savings : Z
}.

Record Summary := mkSummary {
  totalIncome : Z;
  totalExpenses : Z;
  totalSavings : Z;
  monthsWithData : nat
}.

Record Insights := mkInsights {
  bestSavingsMonth : MonthData;
  worstSavingsMonth : MonthData;
  consistentSaver : bool
}.

Record Yearly := mkYearly {
  year : string;
  summary : Summary;
  monthlyBreakdown : list MonthData;
  insights : Insights
}.

(** [calculateMonthlyExpenses] *)
Definition calculateMonthlyExpenses (entriesDb : Entries.EntriesDb)
    (userId month : string) : Z :=
  foldl (λ totalExpenses entry, totalExpenses + entry.(Entries.amount)) 0
        (Entries.monthEntries entriesDb userId month).

(** [getMonthlyIncome]: [incomeDoc?.income?.[month]?.total || 0] *)
Definition getMonthlyIncome (incomeDb : Income.IncomeDb) (userId month : string) : Z :=
  match Income.stored incomeDb userId month with
  | Some record => record.(Income.total)
  | None => 0
  end.

(** [s.padStart(2, '0')] *)
Definition padStart2 (s : string) : string :=
  if (String.length s <? 2)%nat then "0" +:+ s else s.

(** The twelve keys [`${year}-${i.toString().padStart(2, '0')}`]. *)
Definition monthsOf (year : string) : list string :=
  (λ i : nat, year +:+ "-" +:+ padStart2 (pretty i)) <$> seq 1 12.

(** The body of [for (const month of months)]; the running triple is
    [(monthlyData, totalYearlyIncome, totalYearlyExpenses)]. *)
Definition yearlyStep (readIncome readExpenses : string → Z)
    (acc : list MonthData * Z * Z) (month : string) : list MonthData * Z * Z :=
  let '(monthlyData, totalYearlyIncome, totalYearlyExpenses) := acc in
  let monthlyIncome := readIncome month in
  let monthlyExpenses := readExpenses month in
  let monthlySavings := monthlyIncome - monthlyExpenses in
  (monthlyData ++ [mkMonthData month monthlyIncome monthlyExpenses monthlySavings],
   totalYearlyIncome + monthlyIncome,
   totalYearlyExpenses + monthlyExpenses).

(** [array.reduce(f)] without an initial value; it throws on the empty
    array. *)
Definition reduce1 {A} (f : A → A → A) (array : list A) : option A :=
  match array with
  | [] => None
  | first :: rest => Some (foldl f first rest)
  end.

Definition yearlyOver (readIncome readExpenses : string → Z)
    (year : string) (months : list string) : Outcome Error Yearly :=
  let '(monthlyData, totalYearlyIncome, totalYearlyExpenses) :=
    foldl (yearlyStep readIncome readExpenses) ([], 0, 0) months in
  let totalYearlySavings := totalYearlyIncome - totalYearlyExpenses in
  let monthsWithData :=
    filter (λ m, (0 <? m.(income)) || (0 <? m.(expenses)) = true) monthlyData in
  let monthsSaved := filter (λ m, (0 <? m.(savings)) = true) monthlyData in
  match
    reduce1 (λ best current,
               if best.(savings) <? current.(savings) then current else best) monthlyData,
    reduce1 (λ worst current,
               if current.(savings) <? worst.(savings) then current else worst) monthlyData
  with
  | Some best, Some worst =>
      Replied 200
        (mkYearly year
           (mkSummary totalYearlyIncome totalYearlyExpenses totalYearlySavings
              (List.length monthsWithData))
           monthlyData
           (mkInsights best worst (9 <=? List.length monthsSaved)%nat))
  | _, _ => Failed 500 FailedToCalculate
  end.

(** GET /:year/yearly *)
Definition yearlySavings (incomeDb : Income.IncomeDb) (entriesDb : Entries.EntriesDb)
    (userId year : string) : Outcome Error Yearly :=
  if negb (isYear year) then Failed 400 YearFormat
  else yearlyOver (getMonthlyIncome incomeDb userId)
                  (calculateMonthlyExpenses entriesDb userId)
                  year (monthsOf year).

End Savings.

(** ** /api/v1/chat

    The handler maps an [async] function over the intents and awaits
    [Promise.all]. Calling an [async] function runs its body up to the
    first [await]: an intent whose [switch] case throws before any request
    is sent is caught and recorded at once, during the [map]; every other
    intent sends its request and is recorded when the request settles, in
    the order in which the requests settle. The record of an intent is
    pushed by its own [try]/[catch], so no branch rejects and neither
    [catch] block of the handler is entered. *)

Module Chat.
Import Js.

Record Intent := mkIntent {
  intent : string;
  parameters : option (gmap string json)
}.

Inductive Verb := GET | POST | PUT | DELETE.

(** The endpoint a request goes to, with the values spliced into its
    path. *)
Inductive Route :=
  | EntriesRoute
  | BudgetRoute (month : option json)
  | RemainingRoute (month : option json)
  | MonthlySavingsRoute (month : option json)
  | YearlySavingsRoute (year : option json)
  | SavingsSummaryRoute (year : option json)
  | IncomeMonthRoute (month : option json)
  | IncomeRoute
  | BudgetsRoute
  | AddUserEntriesRoute
  | ReassignRoute (month : option json)
  | EntriesDateRoute (date : option json)
  | EntryRoute (date entryId : option json).

(** [payload] is the query of a GET and the body of a POST or PUT; a
    field whose value is [undefined] is not sent. *)
Record Request := mkRequest {
  verb : Verb;
  route : Route;
  payload : gmap string json
}.

(** How a request settles: [axios] resolves with [data], or rejects with
    an error carrying [message]. *)
Inductive Settled :=
  | Resolved (data : json)
  | Rejected (message : string).

Record Result := mkResult {
  res_intent : Intent;
  res_data : json;
  success : bool
}.

(** The collaborators of one chat request. [axios k r] is how the request
    [r] sent for the [k]-th intent settles; [settleOrder] drives the order
    in which the pending requests settle (its [n]-th number, modulo the
    number of requests still pending, names the next one to settle). *)
Record Env := mkEnv {
  extractIntent : string → list Intent;
  generateResponse : string → json → string;
  generateMultiResponse : string → list Result → string;
  axios : nat → Request → Settled;
  settleOrder : list nat
}.

(** An object literal: the fields that are not [undefined]. *)
Definition object (fields : list (string * option json)) : gmap string json :=
  list_to_map (omap (λ field, pair field.1 <$> field.2) fields).

(** [{ error: true, message: error.message }] *)
Definition errorData (message : string) : json :=
  JObj (object [("error", Some (JBool true)); ("message", Some (JStr message))]).

Definition failure (i : Intent) (message : string) : Result :=
  mkResult i (errorData message) false.

(** What the body of the [async] function does before its first
    [await]. *)
Inductive Started :=
  | Sent (r : Request)
  | Raised (message : string).

(** [const { first, ... } = intent.parameters] throws when there are no
    parameters. *)
Definition destructure (i : Intent) (first : string)
    (k : gmap string json → Request) : Started :=
  match i.(parameters) with
  | Some p => Sent (k p)
  | None =>
      Raised ("Cannot destructure property '" +:+ first
              +:+ "' of 'intent.parameters' as it is undefined.")
  end.

(** [value || undefined] *)
Definition orUndefined (value : option json) : option json :=
  if truthy value then value else None.

(** The [switch (intent.intent)]. *)
Definition start (i : Intent) : Started :=
  let name := i.(intent) in
  if String.eqb name "getSpending" then
    destructure i "category" (λ p,
      mkRequest GET EntriesRoute
        (object [("category", orUndefined (p !! "category")); ("month", p !! "month")]))
  else if String.eqb name "getBudget" then
    destructure i "month" (λ p, mkRequest GET (BudgetRoute (p !! "month")) ∅)
  else if String.eqb name "getRemainingBudget" then
    destructure i "month" (λ p, mkRequest GET (RemainingRoute (p !! "month")) ∅)
  else if String.eqb name "getSavings" then
    destructure i "month" (λ p, mkRequest GET (MonthlySavingsRoute (p !! "month")) ∅)
  else if String.eqb name "getYearlySavings" then
    destructure i "year" (λ p, mkRequest GET (YearlySavingsRoute (p !! "year")) ∅)
  else if String.eqb name "getSavingsSummary" then
    destructure i "year" (λ p, mkRequest GET (SavingsSummaryRoute (p !! "year")) ∅)
  else if String.eqb name "getIncome" then
    destructure i "month" (λ p, mkRequest GET (IncomeMonthRoute (p !! "month")) ∅)
  else if String.eqb name "getAllIncome" then
    Sent (mkRequest GET IncomeRoute ∅)
  else if String.eqb name "getAllBudgets" then
    Sent (mkRequest GET BudgetsRoute ∅)
  else if String.eqb name "addEntries" then
    destructure i "date" (λ p,
      mkRequest POST AddUserEntriesRoute
        (object [("date", p !! "date"); ("entries", p !! "entries")]))
  else if String.eqb name "createBudget" then
    destructure i "month" (λ p,
      mkRequest POST BudgetsRoute
        (object [("month", p !! "month"); ("total", p !! "total");
                 ("categories", p !! "categories")]))
  else if String.eqb name "setIncome" then
    destructure i "month" (λ p,
      mkRequest POST IncomeRoute
        (object [("month", p !! "month"); ("total", p !! "total");
                 ("sources", p !! "sources")]))
  else if String.eqb name "updateIncome" then
    destructure i "month" (λ p,
      mkRequest PUT (IncomeMonthRoute (p !! "month"))
        (object [("total", p !! "total"); ("sources", p !! "sources")]))
  else if String.eqb name "deleteIncome" then
    destructure i "month" (λ p, mkRequest DELETE (IncomeMonthRoute (p !! "month")) ∅)
  else if String.eqb name "reassignBudget" then
    destructure i "month" (λ p,
      mkRequest POST (ReassignRoute (p !! "month"))
        (object [("entryId", p !! "entryId"); ("fromCategory", p !! "fromCategory");
                 ("toCategory", p !! "toCategory"); ("amount", p !! "amount")]))
  else if String.eqb name "deleteBudget" then
    destructure i "month" (λ p, mkRequest DELETE (BudgetRoute (p !! "month")) ∅)
  else if String.eqb name "deleteEntries" then
    destructure i "date" (λ p, mkRequest DELETE (EntriesDateRoute (p !! "date")) ∅)
  else if String.eqb name "deleteEntry" then
    destructure i "date" (λ p,
      mkRequest DELETE (EntryRoute (p !! "date") (p !! "entryId")) ∅)
  else Raised "Unsupported intent".

(** The record pushed once the request of an intent has settled. *)
Definition settled (i : Intent) (outcome : Settled) : Result :=
  match outcome with
  | Resolved data => mkResult i data true
  | Rejected message => failure i message
  end.

(** A request in flight: the position of its intent, the intent, the
    request. *)
Record Pending := mkPending {
  position : nat;
  pending_intent : Intent;
  request : Request
}.

(** [intents.map(async (intent) => ...)], from position [k] on: the
    records pushed during the [map] and the requests left in flight. *)
Fixpoint launch (k : nat) (intents : list Intent) : list Result * list Pending :=
  match intents with
  | [] => ([], [])
  | i :: rest =>
      let '(results, pending) := launch (S k) rest in
      match start i with
      | Raised message => (failure i message :: results, pending)
      | Sent r => (results, mkPending k i r :: pending)
      end
  end.

(** The event loop until every request in flight has settled; [n] bounds
    the number of turns and is the number of requests in flight. *)
Fixpoint settleAll (env : Env) (n : nat) (order : list nat)
    (pending : list Pending) (results : list Result) : list Result :=
  match n with
  | O => results
  | S n' =>
      let next := (hd O order mod List.length pending)%nat in
      match pending !! next with
      | Some p =>
          settleAll env n' (tl order) (delete next pending)
            (results ++ [settled p.(pending_intent)
                           (env.(axios) p.(position) p.(request))])
      | None => results
      end
  end.

(** The [results] array once [Promise.all] has resolved. *)
Definition collect (env : Env) (intents : list Intent) : list Result :=
  let '(results, pending) := launch 0 intents in
  settleAll env (List.length pending) env.(settleOrder) pending results.

(** The requests sent downstream. *)
Definition requestsSent (intents : list Intent) : list Request :=
  request <$> (launch 0 intents).2.

(** [results.forEach((result, index) => combinedData[`result${index + 1}`] = ...)] *)
Definition resultKey (index : nat) : string := "result" +:+ pretty (S index).

(** [{ intent: result.intent.intent, data: result.data }] *)
Definition combinedEntry (result : Result) : json :=
  JObj (object [("intent", Some (JStr result.(res_intent).(intent)));
                ("data", Some result.(res_data))]).

Definition combine (results : list Result) : gmap string json :=
  foldl (λ combinedData entry, <[resultKey entry.1 := combinedEntry entry.2]> combinedData)
        ∅ (imap pair results).

Record Reply := mkReply {
  status : nat;
  error : option string;
  reply : string;
  reply_intents : option (list Intent);
  reply_data : option json
}.

Definition clarification : string :=
  "I don't understand that question. You can ask me about your own financial data, such as 'What did I spend on groceries last month?', 'How much is my budget for this month?', or 'Show me my savings for this year.'".

Inductive Answer :=
  | MessageRequired
  | Answered (r : Reply).

(** Whether the first guard after intent extraction fires. *)
Definition noValidIntent (intents : list Intent) : bool :=
  match intents with
  | [] => true
  | [only] => String.eqb only.(intent) "unknown"
  | _ => false
  end.

(** POST /: the answer and the requests sent downstream. *)
Definition chat (env : Env) (reqMessage : option json) : Answer * list Request :=
  match reqMessage with
  | Some (JStr message) =>
      if String.eqb message "" then (MessageRequired, [])
      else
        let intents := env.(extractIntent) message in
        if noValidIntent intents
        then
          (Answered (mkReply 400
                       (Some "No valid intent could be determined from your question")
                       clarification None None), [])
        else
          let results := collect env intents in
          let answer :=
            match results with
            | [single] =>
                mkReply 200 None (env.(generateResponse) message single.(res_data))
                  (Some intents) (Some single.(res_data))
            | _ =>
                mkReply 200 None (env.(generateMultiResponse) message results)
                  (Some intents) (Some (JObj (combine results)))
            end in
          (Answered answer, requestsSent intents)
  | _ => (MessageRequired, [])
  end.

(** The record an intent ends up with, on its own: it depends on the
    intent, on its position and on how its own request settles. *)
Definition recordOf (env : Env) (k : nat) (i : Intent) : Result :=
  match start i with
  | Raised message => failure i message
  | Sent r => settled i (env.(axios) k r)
  end.

(** The record a request in flight turns into when it settles. *)
Definition fire (env : Env) (p : Pending) : Result :=
  settled p.(pending_intent) (env.(axios) p.(position) p.(request)).

(** The records of the intents from position [k] on, in the order of the
    list. *)
Definition recordsFrom (env : Env) (k : nat) (intents : list Intent) : list Result :=
  imap (λ j, recordOf env (k + j)) intents.

(** The ordering in the words of the specification: for every [K], the
    key [result<K+1>] of the combined data holds the intent name and the
    data of the intent at position [K] of the resolver's list. *)
Definition combined_in_intent_order (env : Env) (message : string) : Prop :=
  let intents := env.(extractIntent) message in
  ∃ combinedData,
    (chat env (Some (JStr message))).1
    = Answered (mkReply 200 None (env.(generateMultiResponse) message (collect env intents))
                  (Some intents) (Some (JObj combinedData)))
    ∧ ∀ K i, intents !! K = Some i →
        combinedData !! resultKey K = Some (combinedEntry (recordOf env K i)).

End Chat.

(** ** Concrete requests and collections used as test data *)

Module Scenarios.
Import Js.

Definition db0 : Income.IncomeDb := ∅.

(** The README's request: 75000 declared, 65000 of salary. *)
Definition afterSet : Income.IncomeDb :=
  (Income.setIncome 1 "u" (Some (JStr "2024-01")) (Some (JNum 75000))
     (Some (JObj (<["salary" := JNum 65000]> ∅))) db0).2.

(** An expense line with a negative amount. *)
Definition refund : json :=
  JObj (<["code" := JStr "FOD-GRO"]>
        (<["amount" := JNum (-5)]> (<["item" := JStr "returned milk"]> ∅))).

Definition noEntries : Entries.EntriesDb := ∅.

(** The part of the taxonomy the scenarios need. *)
Definition taxonomy : list Budgets.Category :=
  [ Budgets.mkCategory "FOD" None;
    Budgets.mkCategory "FOD-GRO" (Some "FOD");
    Budgets.mkCategory "HOU" None;
    Budgets.mkCategory "HOU-RENT" (Some "HOU");
    Budgets.mkCategory "TRN" None;
    Budgets.mkCategory "TRN-FUEL" (Some "TRN");
    Budgets.mkCategory "MIS" None ].

Definition spent (code : string) (amount : Z) : Entries.Entry :=
  Entries.mkEntry None code amount "" None.

(** The budget of the specification's scenario. *)
Definition envelope : Budgets.Budget :=
  Budgets.mkBudget 3000 (<["FOD" := 1000]> (<["HOU-RENT" := 1500]> ∅)).

(** A budget whose only category has nothing allocated. *)
Definition zeroFood : Budgets.Budget := Budgets.mkBudget 100 {["FOD" := 0]}.

(** A budget with an allocation for the taxonomy's own [MIS] category. *)
Definition withMis : Budgets.Budget := Budgets.mkBudget 1000 {["MIS" := 200]}.

(** January has 75000 of income; 300 and 200 were spent in January and
    1000 in March. *)
Definition yearEntries : Entries.EntriesDb :=
  Entries.pushEntries "u" "2024-03" "02" [spent "HOU-RENT" 1000]
    (Entries.pushEntries "u" "2024-01" "15"
       [spent "FOD-GRO" 300; spent "TRN-FUEL" 200] ∅).

Definition budgetsOf (b : Budgets.Budget) : Budgets.BudgetsDb :=
  {["u" := {["2024-01" := b]}]}.

Definition entriesOf (monthly : list Entries.Entry) : Entries.EntriesDb :=
  Entries.pushEntries "u" "2024-01" "15" monthly ∅.

(** A supported intent followed by one that the [switch] does not know. *)
Definition budgetThenUnsupported : list Chat.Intent :=
  [ Chat.mkIntent "getBudget" (Some {["month" := JStr "2024-01"]});
    Chat.mkIntent "classifyReceipt" (Some ∅) ].

(** January's budget is there, February's income is not. *)
Definition foundThenMissing : list Chat.Intent :=
  [ Chat.mkIntent "getBudget" (Some {["month" := JStr "2024-01"]});
    Chat.mkIntent "updateIncome"
      (Some (<["month" := JStr "2024-02"]> {["total" := JNum 80000]})) ].

Definition answering (intents : list Chat.Intent)
    (network : nat → Chat.Request → Chat.Settled) (order : list nat) : Chat.Env :=
  Chat.mkEnv (λ _, intents) (λ _ _, "one answer") (λ _ _, "several answers")
    network order.

Definition alwaysResolves : nat → Chat.Request → Chat.Settled :=
  λ _ _, Chat.Resolved (JObj ∅).

Definition putIsNotFound : nat → Chat.Request → Chat.Settled :=
  λ _ r, match r.(Chat.verb) with
         | Chat.PUT => Chat.Rejected "Request failed with status code 404"
         | _ => Chat.Resolved (JObj ∅)
         end.

End Scenarios.

(** ** /api/v1/income, the read routes *)

Module IncomeReads.
Import Js Income.

(** GET /: [incomeDoc?.income || {}] *)
Definition getAllIncome (userId : string) (db : IncomeDb) : gmap string IncomeRec :=
  default ∅ (db !! userId).

(** GET /:month: [incomeDoc?.income?.[month] || null] *)
Definition getIncome (userId month : string) (db : IncomeDb)
  : Outcome Error (option IncomeRec) :=
  if negb (isMonth month) then Failed 400 MonthFormat
  else Replied 200 (stored db userId month).

End IncomeReads.

(** ** /api/v1/entries, the read and delete routes *)

Module EntriesOps.
Import Js Entries.

(** A query parameter that may be repeated: absent, given once, or given
    several times. *)
Inductive Query :=
  | QAbsent
  | QOne (value : string)
  | QMany (values : list string).

Inductive OpsError :=
  | MonthParamFormat
  | MonthParamRequired
  | FailedToRetrieve
  | DateFormat
  | EntryIdRequired
  | NoEntriesForDate
  | EntryNotFound
  | DateOrMonthFormat
  | NoEntriesForUser
  | NoEntriesFor (isFullDate : bool).

Inductive Removed := EntryDeleted | EntriesDeleted.

(** [{ ...entry, date: `${currentMonth}-${day}` }] *)
Record Dated := mkDated {
  dated_entry : Entry;
  date : string
}.

(** [if (q) list = Array.isArray(q) ? q : [q]], else the empty list. *)
Definition listOf (q : Query) : list string :=
  match q with
  | QAbsent => []
  | QOne value => if String.eqb value "" then [] else [value]
  | QMany values => values
  end.

(** The rows of one day: the entries whose code is among the requested
    categories, or all of them when no category is requested. *)
Definition dayRows (categories : list string) (currentMonth day : string)
    (dayData : DayData) : list Dated :=
  match dayData.(entries) with
  | Some stored =>
      let matchingEntries :=
        if bool_decide (categories = []) then stored
        else filter (λ entry, entry.(code) ∈ categories) stored in
      (λ entry, mkDated entry (currentMonth +:+ "-" +:+ day)) <$> matchingEntries
  | None => []
  end.

(** The body of [for (const currentMonth of months)]. *)
Definition monthRows (categories : list string) (db : EntriesDb)
    (userId currentMonth : string) : list Dated :=
  match db !! userId ≫= (.!! currentMonth) with
  | None => []
  | Some monthData =>
      map_to_list monthData ≫= (λ day, dayRows categories currentMonth day.1 day.2)
  end.

(** GET /. The check [if (invalidMonth)] lets the empty string through;
    the store then refuses the empty field path of the projection. Days come
    in the order of the dictionary. *)
Definition getEntries (userId : string) (category month : Query) (db : EntriesDb)
  : Outcome OpsError (list Dated) :=
  let categories := listOf category in
  let months := listOf month in
  match List.find (λ m, negb (isMonth m)) months with
  | Some (String c rest) => Failed 400 MonthParamFormat
  | Some EmptyString => Failed 500 FailedToRetrieve
  | None =>
      match months with
      | [] => Failed 400 MonthParamRequired
      | _ => Replied 200 (months ≫= monthRows categories db userId)
      end
  end.

(** The condition [{ id: entryId }] of the [$pull], applied to one element
    of the array as a query: the [id] is that string, or an array holding
    it. *)
Definition idMatches (entryId : string) (entry : Entry) : Prop :=
  match entry.(id) with
  | Some (JStr s) => s = entryId
  | Some (JArr values) => JStr entryId ∈@{list json} values
  | _ => False
  end.

#[global] Instance json_str_in_dec (entryId : string) (values : list json) :
  Decision (JStr entryId ∈ values).
Proof.
  induction values as [| value values IH].
  - right. by intros ?%elem_of_nil.
  - destruct IH as [Hin | Hout]; [left; by right |].
    destruct value as [| | | s | |];
      try (right; intros [Heq | ?]%elem_of_cons; [discriminate | done]).
    destruct (decide (s = entryId)) as [-> | Hne].
    + left. by left.
    + right. intros [Heq | ?]%elem_of_cons; [congruence | done].
Defined.

#[global] Instance idMatches_dec entryId entry : Decision (idMatches entryId entry).
Proof.
  unfold idMatches. destruct entry.(id) as [[| | | s | values |] |]; apply _.
Defined.

(** Writing the array of one day back in place. *)
Definition setDay (userId yearMonth day : string) (dayData : DayData)
    (db : EntriesDb) : EntriesDb :=
  let doc := default ∅ (db !! userId) in
  <[userId := <[yearMonth := <[day := dayData]> (default ∅ (doc !! yearMonth))]> doc]> db.

(** DELETE /:date/:entryId. The filter asks for the [entries] path to
    exist ([matchedCount]); [modifiedCount] is 0 when the [$pull] removes
    nothing. *)
Definition deleteEntry (userId date entryId : string) (db : EntriesDb)
  : Outcome OpsError Removed * EntriesDb :=
  if negb (isDate date) then (Failed 400 DateFormat, db)
  else if String.eqb entryId "" then (Failed 400 EntryIdRequired, db)
  else
    let yearMonth := substring 0 7 date in
    let day := substring 8 2 date in
    match ((db !! userId ≫= (.!! yearMonth)) ≫= (.!! day)) ≫= entries with
    | None => (Failed 404 NoEntriesForDate, db)
    | Some stored =>
        let kept := filter (λ entry, ¬ idMatches entryId entry) stored in
        if bool_decide (Exists (idMatches entryId) stored)
        then (Replied 200 EntryDeleted, setDay userId yearMonth day (mkDay (Some kept)) db)
        else (Failed 404 EntryNotFound, db)
    end.

(** DELETE /:date, for a day ([YYYY-MM-DD]) or a whole month ([YYYY-MM]):
    an [$unset] of the path; [matchedCount] is 0 when the user has no
    document, [modifiedCount] is 0 when the path is not there. *)
Definition deleteEntries (userId date : string) (db : EntriesDb)
  : Outcome OpsError Removed * EntriesDb :=
  if isDate date then
    let yearMonth := substring 0 7 date in
    let day := substring 8 2 date in
    match db !! userId with
    | None => (Failed 404 NoEntriesForUser, db)
    | Some doc =>
        match doc !! yearMonth ≫= (.!! day) with
        | None => (Failed 404 (NoEntriesFor true), db)
        | Some _ =>
            (Replied 200 EntriesDeleted,
             <[userId := <[yearMonth := delete day (default ∅ (doc !! yearMonth))]> doc]> db)
        end
    end
  else if isMonth date then
    match db !! userId with
    | None => (Failed 404 NoEntriesForUser, db)
    | Some doc =>
        match doc !! date with
        | None => (Failed 404 (NoEntriesFor false), db)
        | Some _ => (Replied 200 EntriesDeleted, <[userId := delete date doc]> db)
        end
    end
  else (Failed 400 DateOrMonthFormat, db).

End EntriesOps.

(** ** /api/v1/budgets, the write and read routes

    The POST stores [total] and [categories] as they come: [total] is a
    number, [categories] is whatever passes [typeof categories ===
    'object'] and is not an array, that is an object or [null]. *)

Module BudgetWrites.
Import Js.

Record StoredBudget := mkStored {
  stored_total : Z;
  stored_categories : json
}.

Abbreviation StoredBudgets := (gmap string (gmap string StoredBudget)).

Inductive Error :=
  | MonthTotalCategoriesRequired
  | MonthFormat.

Inductive Created := BudgetSet.

(** POST / *)
Definition createBudget (userId : string) (reqMonth reqTotal reqCategories : option json)
    (db : StoredBudgets) : Outcome Error Created * StoredBudgets :=
  match reqMonth, reqTotal, reqCategories with
  | Some (JStr month), Some (JNum total), Some categories =>
      if negb (isMonth month) then (Failed 400 MonthTotalCategoriesRequired, db)
      else
        match categories with
        | JNull | JObj _ =>
            (Replied 201 BudgetSet,
             <[userId := <[month := mkStored total categories]> (default ∅ (db !! userId))]> db)
        | _ => (Failed 400 MonthTotalCategoriesRequired, db)
        end
  | _, _, _ => (Failed 400 MonthTotalCategoriesRequired, db)
  end.

(** GET /: [budgetDoc?.budgets || {}] *)
Definition getAllBudgets (userId : string) (db : StoredBudgets) : gmap string StoredBudget :=
  default ∅ (db !! userId).

(** GET /:month: [budgetDoc?.budgets?.[month] || null] *)
Definition getBudget (userId month : string) (db : StoredBudgets)
  : Outcome Error (option StoredBudget) :=
  if negb (isMonth month) then Failed 400 MonthFormat
  else Replied 200 (db !! userId ≫= (.!! month)).

(** The bucket the reconciliation loop files a category code in: [Some]
    of a budgeted category, or [None] for the miscellaneous counter. *)
Definition filedUnder (taxonomy : list Budgets.Category) (monthlyBudget : Budgets.Budget)
    (categoryCode : string) : option string :=
  if Budgets.hasBudget monthlyBudget categoryCode then Some categoryCode
  else
    match Budgets.parentOf taxonomy categoryCode with
    | Some parentCategory =>
        if negb (String.eqb parentCategory "") && Budgets.hasBudget monthlyBudget parentCategory
        then Some parentCategory
        else None
    | None => None
    end.

End BudgetWrites.

(** ** /api/v1/savings, the monthly route and the yearly summary *)

Module SavingsReads.
Import Js Savings.

Inductive Error :=
  | MonthFormat
  | YearFormat.

Inductive Verdict := PositiveSavings | Overspent.

Record Monthly := mkMonthly {
  monthly_month : string;
  monthly_totalIncome : Z;
  monthly_totalExpenses : Z;
  monthly_savings : Z;
  monthly_summary : Verdict
}.

(** GET /:month/monthly *)
Definition monthlySavings (incomeDb : Income.IncomeDb) (entriesDb : Entries.EntriesDb)
    (userId month : string) : Outcome Error Monthly :=
  if negb (isMonth month) then Failed 400 MonthFormat
  else
    let totalIncome := getMonthlyIncome incomeDb userId month in
    let totalExpenses := calculateMonthlyExpenses entriesDb userId month in
    let savings := totalIncome - totalExpenses in
    Replied 200 (mkMonthly month totalIncome totalExpenses savings
                   (if 0 <=? savings then PositiveSavings else Overspent)).

Inductive Period := YearToDate | FullYear.

Inductive Status := Saving | Overspending.

Record YearSummary := mkYearSummary {
  ys_year : string;
  period : Period;
  monthsCovered : nat;
  monthsWithIncome : nat;
  ys_totalIncome : Z;
  ys_totalExpenses : Z;
  ys_totalSavings : Z;
  status : Status
}.

(** [`${year}-${i.toString().padStart(2, '0')}`] *)
Definition monthKey (year : string) (i : nat) : string :=
  year +:+ "-" +:+ padStart2 (pretty i).

(** The body of [for (let i = 1; i <= monthsToCalculate; i++)]; the
    running triple is [(totalIncome, totalExpenses, monthsWithIncome)]. *)
Definition summaryStep (readIncome readExpenses : string → Z)
    (acc : Z * Z * nat) (month : string) : Z * Z * nat :=
  let '(totalIncome, totalExpenses, monthsWithIncome) := acc in
  let monthlyIncome := readIncome month in
  let monthlyExpenses := readExpenses month in
  (totalIncome + monthlyIncome,
   totalExpenses + monthlyExpenses,
   if 0 <? monthlyIncome then S monthsWithIncome else monthsWithIncome).

(** GET /summary/:year. [currentYear] is
    [new Date().getFullYear().toString()] and [currentMonth] is
    [new Date().getMonth() + 1]. *)
Definition savingsSummary (currentYear : string) (currentMonth : nat)
    (incomeDb : Income.IncomeDb) (entriesDb : Entries.EntriesDb)
    (userId year : string) : Outcome Error YearSummary :=
  if negb (isYear year) then Failed 400 YearFormat
  else
    let monthsToCalculate := if String.eqb year currentYear then currentMonth else 12%nat in
    let '(totalIncome, totalExpenses, monthsWithIncome) :=
      foldl (summaryStep (getMonthlyIncome incomeDb userId)
                         (calculateMonthlyExpenses entriesDb userId))
            (0, 0, O) (monthKey year <$> seq 1 monthsToCalculate) in
    let totalSavings := totalIncome - totalExpenses in
    Replied 200
      (mkYearSummary year
         (if String.eqb year currentYear then YearToDate else FullYear)
         monthsToCalculate monthsWithIncome totalIncome totalExpenses totalSavings
         (if 0 <=? totalSavings then Saving else Overspending)).

(** The line of the yearly breakdown for one month. *)
Definition lineOf (readIncome readExpenses : string → Z) (month : string) : MonthData :=
  mkMonthData month (readIncome month) (readExpenses month)
    (readIncome month - readExpenses month).

Definition sumOver {A} (f : A → Z) (l : list A) : Z := foldr Z.add 0 (f <$> l).

End SavingsReads.

(** ** /api/v1/chat, the dispatch table *)

Module ChatTable.
Import Js Chat.

(** The names of the [case] labels of the [switch]. *)
Definition supportedIntents : list string :=
  [ "getSpending"; "getBudget"; "getRemainingBudget"; "getSavings"; "getYearlySavings";
    "getSavingsSummary"; "getIncome"; "getAllIncome"; "getAllBudgets"; "addEntries";
    "createBudget"; "setIncome"; "updateIncome"; "deleteIncome"; "reassignBudget";
    "deleteBudget"; "deleteEntries"; "deleteEntry" ].

(** The request an intent sends, if it gets as far as sending one. *)
Definition requestOf (i : Intent) : option Request :=
  match start i with
  | Sent r => Some r
  | Raised _ => None
  end.

End ChatTable.

(** ** /api/v1/shopping, the two search routes

    Fetching the result page ([makeRequest]) and reading products out of it
    ([parseContent]) are collaborators, as is the platform's
    [String.prototype.trim]; each of the first two may throw ([None]).
    Prices are exact numbers. *)

Module Shopping.
Import Js.

Record Product := mkProduct {
  title : string;
  price : Z;
  rawPrice : string;
  store : string;
  reviews : Z;
  stars : Z;
  link : string
}.

Record Env := mkEnv {
  trim : string → string;
  makeRequest : string → string → option string;
  parseContent : string → option (list Product)
}.

Inductive Error :=
  | QueryRequired
  | CountryCode
  | NoOffersFound
  | FailedToSearch.

Record Found := mkFound {
  found_query : string;
  found_country : string;
  offers : list Product;
  count : nat
}.

(** [/^[a-z]{2}$/.test(s)] *)
Definition isCountry (s : string) : bool :=
  match list_ascii_of_string s with
  | [c1; c2] =>
      forallb (λ c, let n := nat_of_ascii c in ((97 <=? n) && (n <=? 122))%nat) [c1; c2]
  | _ => false
  end.

(** The two checks both routes start with: the trimmed query and the
    country to search in ([country || 'in']), or the 400. *)
Definition checkSearch (env : Env) (reqQuery reqCountry : option json)
  : Error + (string * string) :=
  match reqQuery with
  | Some (JStr query) =>
      if String.eqb query "" || String.eqb (env.(trim) query) "" then inl QueryRequired
      else if negb (truthy reqCountry) then inr (env.(trim) query, "in")
      else
        match reqCountry with
        | Some (JStr country) =>
            if isCountry country then inr (env.(trim) query, country) else inl CountryCode
        | _ => inl CountryCode
        end
  | _ => inl QueryRequired
  end.

(** [getRelevantOffers]: every failure is turned into [null]. *)
Definition getRelevantOffers (env : Env) (query country : string) : option (list Product) :=
  match env.(makeRequest) query country ≫= env.(parseContent) with
  | Some (first :: others) => Some (take 5 (first :: others))
  | _ => None
  end.

(** POST /search *)
Definition search (env : Env) (reqQuery reqCountry : option json) : Outcome Error Found :=
  match checkSearch env reqQuery reqCountry with
  | inl err => Failed 400 err
  | inr (query, country) =>
      match getRelevantOffers env query country with
      | Some (first :: others) =>
          Replied 200 (mkFound query country (first :: others) (List.length (first :: others)))
      | _ => Failed 404 NoOffersFound
      end
  end.

(** Where [products.sort((a, b) => a.price - b.price)] puts one product
    among cheaper-first ones: before the first that is not cheaper. *)
Fixpoint insertByPrice (p : Product) (sorted : list Product) : list Product :=
  match sorted with
  | [] => [p]
  | q :: rest =>
      if q.(price) <? p.(price) then q :: insertByPrice p rest else p :: q :: rest
  end.

(** The stable sort by ascending price. *)
Definition sortByPrice (products : list Product) : list Product :=
  foldr insertByPrice [] products.

(** POST /cheapest *)
Definition cheapest (env : Env) (reqQuery reqCountry : option json) : Outcome Error Found :=
  match checkSearch env reqQuery reqCountry with
  | inl err => Failed 400 err
  | inr (query, country) =>
      match env.(makeRequest) query country ≫= env.(parseContent) with
      | None => Failed 500 FailedToSearch
      | Some [] => Failed 404 NoOffersFound
      | Some products =>
          let topOffers := take 5 (sortByPrice products) in
          Replied 200 (mkFound query country topOffers (List.length topOffers))
      end
  end.

(** Ascending prices: every element costs at most every later one. *)
Definition ascending (products : list Product) : Prop :=
  ∀ i j p q, (i < j)%nat → products !! i = Some p → products !! j = Some q →
             p.(price) ≤ q.(price).

(** The products at one price, in their order. *)
Definition pricedAt (k : Z) (products : list Product) : list Product :=
  filter (λ p, p.(price) = k) products.

End Shopping.

(** ** /api/v1/auth/delete

    The database as the deletion sees it: named collections of documents,
    each with its [_id] and, where it has one, the [userId] of its owner. *)

Module Account.
Import Js.

Record Document := mkDocument {
  doc_id : string;
  doc_userId : option string;
  content : json
}.

Abbreviation Database := (gmap string (list Document)).

(** [deleteOne({ _id })]: the first document with that [_id] goes. *)
Fixpoint deleteOne (userId : string) (docs : list Document) : list Document :=
  match docs with
  | [] => []
  | doc :: rest =>
      if String.eqb doc.(doc_id) userId then rest else doc :: deleteOne userId rest
  end.

(** [deleteMany({ userId })]: every document of that owner goes. *)
Definition deleteMany (userId : string) (docs : list Document) : list Document :=
  filter (λ doc, doc.(doc_userId) ≠ Some userId) docs.

(** The collections the cascade names. *)
Definition cascade : list string := ["receipts"; "transactions"; "budgets"; "insights"].

(** The collections the finance routes keep their documents in. *)
Definition financeCollections : list string :=
  ["user_entries"; "user_budgets"; "user_income"; "budget_reassignments"].

(** DELETE /delete, answered 204. *)
Definition deleteAccount (userId : string) (db : Database) : nat * Database :=
  (204%nat,
   foldl (λ database name, alter (deleteMany userId) name database)
         (alter (deleteOne userId) "users" db) cascade).

End Account.

(** ** More test data *)

Module MoreScenarios.
Import Js Scenarios.

Definition withId (entryId code : string) (amount : Z) : Entries.Entry :=
  Entries.mkEntry (Some (JStr entryId)) code amount "" None.

(** Two identified entries on 15 January. *)
Definition identified : Entries.EntriesDb :=
  Entries.pushEntries "u" "2024-01" "15"
    [withId "a1" "FOD-GRO" 300; withId "b2" "TRN-FUEL" 200] ∅.

Definition offer (title : string) (price : Z) (store : string) : Shopping.Product :=
  Shopping.mkProduct title price "" store 0 0 "".

(** A page with three offers, and a network that is down. *)
Definition threeOffers : Shopping.Env :=
  Shopping.mkEnv (λ s, s) (λ _ _, Some "page")
    (λ _, Some [offer "Phone A" 300 "Amazon"; offer "Phone B" 100 "Croma";
                offer "Phone C" 200 "Flipkart"]).

Definition offline : Shopping.Env :=
  Shopping.mkEnv (λ s, s) (λ _ _, None) (λ _, Some []).

(** A user with an income document, and an unrelated receipt. *)
Definition withFinanceData : Account.Database :=
  <["users" := [Account.mkDocument "u" None JNull]]>
    (<["user_income" := [Account.mkDocument "d1" (Some "u") JNull]]>
       {["receipts" := [Account.mkDocument "d2" (Some "u") JNull]]}).

End MoreScenarios.

(** ** Numbers

    A JavaScript number is an IEEE 754 binary64 value: [+] and [-] round to
    the nearest value and [<] compares as the standard says. The yearly
    savings route is modelled here a second time with its arithmetic as a
    parameter: [binary64] is the arithmetic the program runs on, [exactZ]
    the arithmetic of the integer model above. What is proved for every
    arithmetic holds of the program; what needs [Exact] holds of it only as
    far as its sums are exact. *)

Module Numbers.
Import (notations) PrimFloat.

Record Arith := mkArith {
  num : Type;
  zero : num;
  (** [a + b] *)
  add : num → num → num;
  (** [a - b] *)
  sub : num → num → num;
  (** [a < b] *)
  less : num → num → bool;
  (** [!a] *)
  falsy : num → bool
}.

(** JavaScript's numbers: [0], [-0] and [NaN] are the falsy ones. *)
Definition binary64 : Arith :=
  mkArith PrimFloat.float 0%float PrimFloat.add PrimFloat.sub PrimFloat.ltb
    (λ a, PrimFloat.eqb a 0%float || PrimFloat.is_nan a).

(** The integers. *)
Definition exactZ : Arith := mkArith Z 0 Z.add Z.sub Z.ltb (Z.eqb 0).

(** Arithmetic without rounding: addition is associative and commutative
    with [zero] neutral, and subtraction undoes addition. *)
Record Exact (A : Arith) : Prop := mkExact {
  add_assoc : ∀ a b c, A.(add) a (A.(add) b c) = A.(add) (A.(add) a b) c;
  add_comm : ∀ a b, A.(add) a b = A.(add) b a;
  add_zero : ∀ a, A.(add) a A.(zero) = a;
  sub_add : ∀ a b, A.(add) (A.(sub) a b) b = a;
  add_sub : ∀ a b, A.(sub) (A.(add) a b) b = a
}.

End Numbers.

(** ** /api/v1/savings/:year/yearly over an arithmetic

    Of the two collections the route reads the [total] of the income
    records and the [amount] of the entries. [IncomeTotals] is [userId] to
    month to [total]; [EntryAmounts] is [userId] to month to the days of
    that month, each day being the amounts of its [entries], the days in the
    order in which [Object.values] enumerates them. As in [Savings], the
    rate and average fields of the answer are left out. *)

Module SavingsArith.
Import Js Numbers.

Section Arithmetic.
Context (A : Arith).

Record MonthData := mkMonthData {
  month : string;
  income : num A;
  expenses : num A;
  savings : num A
}.

Record Summary := mkSummary {
  totalIncome : num A;
  totalExpenses : num A;
  totalSavings : num A;
  monthsWithData : nat
}.

Record Insights := mkInsights {
  bestSavingsMonth : MonthData;
  worstSavingsMonth : MonthData;
  consistentSaver : bool
}.

Record Yearly := mkYearly {
  year : string;
  summary : Summary;
  monthlyBreakdown : list MonthData;
  insights : Insights
}.

Definition IncomeTotals : Type := gmap string (gmap string (num A)).

Definition EntryAmounts : Type := gmap string (gmap string (list (list (num A)))).

(** [value || 0] *)
Definition orZero (value : num A) : num A :=
  if A.(falsy) value then A.(zero) else value.

(** [calculateMonthlyExpenses]: one [totalExpenses += entry.amount || 0]
    per entry, day after day. *)
Definition calculateMonthlyExpenses (entriesDb : EntryAmounts)
    (userId month : string) : num A :=
  let monthlyEntries := default [] (entriesDb !! userId ≫= (.!! month)) in
  foldl (λ totalExpenses dayData,
           foldl (λ totalExpenses amount, A.(add) totalExpenses (orZero amount))
                 totalExpenses dayData)
        A.(zero) monthlyEntries.

(** [getMonthlyIncome]: [incomeDoc?.income?.[month]?.total || 0] *)
Definition getMonthlyIncome (incomeDb : IncomeTotals) (userId month : string) : num A :=
  match incomeDb !! userId ≫= (.!! month) with
  | Some total => orZero total
  | None => A.(zero)
  end.

(** The line pushed for one month. *)
Definition lineOf (readIncome readExpenses : string → num A) (month : string) : MonthData :=
  mkMonthData month (readIncome month) (readExpenses month)
    (A.(sub) (readIncome month) (readExpenses month)).

(** The body of [for (const month of months)]; the running triple is
    [(monthlyData, totalYearlyIncome, totalYearlyExpenses)]. *)
Definition yearlyStep (readIncome readExpenses : string → num A)
    (acc : list MonthData * num A * num A) (month : string)
  : list MonthData * num A * num A :=
  let '(monthlyData, totalYearlyIncome, totalYearlyExpenses) := acc in
  let monthlyIncome := readIncome month in
  let monthlyExpenses := readExpenses month in
  let monthlySavings := A.(sub) monthlyIncome monthlyExpenses in
  (monthlyData ++ [mkMonthData month monthlyIncome monthlyExpenses monthlySavings],
   A.(add) totalYearlyIncome monthlyIncome,
   A.(add) totalYearlyExpenses monthlyExpenses).

Definition yearlyOver (readIncome readExpenses : string → num A)
    (year : string) (months : list string) : Outcome Savings.Error Yearly :=
  let '(monthlyData, totalYearlyIncome, totalYearlyExpenses) :=
    foldl (yearlyStep readIncome readExpenses) ([], A.(zero), A.(zero)) months in
  let totalYearlySavings := A.(sub) totalYearlyIncome totalYearlyExpenses in
  let monthsWithData :=
    List.filter (λ m, A.(less) A.(zero) m.(income) || A.(less) A.(zero) m.(expenses))
                monthlyData in
  let monthsSaved := List.filter (λ m, A.(less) A.(zero) m.(savings)) monthlyData in
  match
    Savings.reduce1 (λ best current,
                       if A.(less) best.(savings) current.(savings) then current else best)
                    monthlyData,
    Savings.reduce1 (λ worst current,
                       if A.(less) current.(savings) worst.(savings) then current else worst)
                    monthlyData
  with
  | Some best, Some worst =>
      Replied 200
        (mkYearly year
           (mkSummary totalYearlyIncome totalYearlyExpenses totalYearlySavings
              (List.length monthsWithData))
           monthlyData
           (mkInsights best worst (9 <=? List.length monthsSaved)%nat))
  | _, _ => Failed 500 Savings.FailedToCalculate
  end.

(** GET /:year/yearly *)
Definition yearlySavings (incomeDb : IncomeTotals) (entriesDb : EntryAmounts)
    (userId year : string) : Outcome Savings.Error Yearly :=
  if negb (isYear year) then Failed 400 Savings.YearFormat
  else yearlyOver (getMonthlyIncome incomeDb userId)
                  (calculateMonthlyExpenses entriesDb userId)
                  year (Savings.monthsOf year).

(** A column of the breakdown added up from [zero], first line first. *)
Definition sumOf (field : MonthData → num A) (monthlyData : list MonthData) : num A :=
  foldl A.(add) A.(zero) (field <$> monthlyData).

(** The identity in the words of the specification: the [savings] fields
    of the breakdown add up to [summary.totalSavings]. *)
Definition savings_add_up_to_total (incomeDb : IncomeTotals) (entriesDb : EntryAmounts)
    (userId year : string) : Prop :=
  ∀ status r,
    yearlySavings incomeDb entriesDb userId year = Replied status r →
    sumOf savings r.(monthlyBreakdown) = r.(summary).(totalSavings).

End Arithmetic.

Arguments month {A} _.
Arguments income {A} _.
Arguments expenses {A} _.
Arguments savings {A} _.
Arguments totalIncome {A} _.
Arguments totalExpenses {A} _.
Arguments totalSavings {A} _.
Arguments monthsWithData {A} _.
Arguments bestSavingsMonth {A} _.
Arguments worstSavingsMonth {A} _.
Arguments consistentSaver {A} _.
Arguments year {A} _.
Arguments summary {A} _.
Arguments monthlyBreakdown {A} _.
Arguments insights {A} _.

End SavingsArith.

(** ** Amounts with cents *)

Module Cents.
Import Numbers.
Import (notations) PrimFloat.

(** A decimal literal denotes the nearest binary64 value, as it does in
    JavaScript and in [JSON.parse]. *)
#[local] Set Warnings "-inexact-float".

(** An income of 50 for January 2024. *)
Definition fifty : SavingsArith.IncomeTotals binary64 :=
  {["u" := ({["2024-01" := 50%float]} : gmap string PrimFloat.float)]}.

(** One entry of 45.99 on 15 January and one of 0.01 on 2 February. *)
Definition groceriesAndStamp : SavingsArith.EntryAmounts binary64 :=
  {["u" := (<["2024-01" := [[45.99%float]]]> {["2024-02" := [[0.01%float]]]}
            : gmap string (list (list PrimFloat.float)))]}.

(** The same amounts in cents. *)
Definition fiftyInCents : SavingsArith.IncomeTotals exactZ :=
  {["u" := ({["2024-01" := 5000]} : gmap string Z)]}.

Definition groceriesAndStampInCents : SavingsArith.EntryAmounts exactZ :=
  {["u" := (<["2024-01" := [[4599]]]> {["2024-02" := [[1]]]}
            : gmap string (list (list Z)))]}.

Definition four : num binary64 := 4%float.

Definition justBelowFour : num binary64 := 3.9999999999999982%float.

End Cents.

(* ================================================================== *)
(** * Properties *)

Module JsProps.
Import Js.

Lemma sumValues_empty : sumValues ∅ = 0.
Proof. unfold sumValues. by rewrite map_fold_empty. Qed.

Lemma sumValues_insert_fresh (o : gmap string Z) key amount :
  o !! key = None → sumValues (<[key := amount]> o) = sumValues o + amount.
Proof.
  intros Hfresh. unfold sumValues.
  rewrite map_fold_insert_L; [done | | done].
  intros; lia.
Qed.

Lemma sumValues_delete (o : gmap string Z) key amount :
  o !! key = Some amount → sumValues o = sumValues (delete key o) + amount.
Proof.
  intros Hkey. unfold sumValues.
  rewrite (map_fold_delete_L _ _ key amount o); [done | | done].
  intros; lia.
Qed.

(** Writing a key that is already there replaces its amount. *)
Lemma sumValues_insert_present (o : gmap string Z) key old amount :
  o !! key = Some old →
  sumValues (<[key := amount]> o) = sumValues o - old + amount.
Proof.
  intros Hkey.
  rewrite <- insert_delete_eq.
  rewrite sumValues_insert_fresh by apply lookup_delete_eq.
  rewrite (sumValues_delete o key old Hkey). lia.
Qed.

Lemma sumValues_singleton key amount : sumValues {[key := amount]} = amount.
Proof.
  rewrite <- insert_empty, sumValues_insert_fresh by apply lookup_empty.
  rewrite sumValues_empty. lia.
Qed.

End JsProps.

Module IncomeProps.
Import Js Income JsProps Scenarios.

Example setIncome_readme :
  (setIncome 1 "u" (Some (JStr "2024-01")) (Some (JNum 75000))
     (Some (JObj (<["salary" := JNum 65000]> ∅))) db0).1
  = Replied 201 (mkIncome 75000
      (<["miscellaneous" := 10000]> (<["salary" := 65000]> ∅)) 1).
Proof. reflexivity. Qed.

Example setIncome_no_sources :
  (setIncome 1 "u" (Some (JStr "2024-01")) (Some (JNum 5000)) None db0).1
  = Replied 201 (mkIncome 5000 {["main" := 5000]} 1).
Proof. reflexivity. Qed.

(** The shortfall rule restores the invariant when the sources carry no
    [miscellaneous] key of their own. *)
Lemma withMiscellaneous_sum_fresh (srcs : gmap string Z) tot :
  srcs !! "miscellaneous" = None → sumValues srcs ≤ tot →
  sumValues (withMiscellaneous srcs tot) = tot.
Proof.
  intros Hfresh Hle. unfold withMiscellaneous.
  destruct (Z.ltb_spec (sumValues srcs) tot) as [Hlt | Hge].
  - rewrite sumValues_insert_fresh by done. lia.
  - lia.
Qed.

(** When the sources already hold a [miscellaneous] amount and fall short,
    the spread overwrites that amount with the shortfall, and the sum
    misses the total by exactly the amount that was overwritten. *)
Lemma withMiscellaneous_sum_present (srcs : gmap string Z) tot old :
  srcs !! "miscellaneous" = Some old → sumValues srcs < tot →
  sumValues (withMiscellaneous srcs tot) = tot - old.
Proof.
  intros Hold Hlt. unfold withMiscellaneous.
  destruct (Z.ltb_spec (sumValues srcs) tot) as [_ | Hge]; [| lia].
  rewrite (sumValues_insert_present _ _ old) by done. lia.
Qed.

(** C1, evaluated on the code. After [setIncome] stored
    [{salary: 65000, miscellaneous: 10000}] for a total of 75000, the
    total-only update to 80000 succeeds and stores total 80000 with
    sources [{salary: 65000, miscellaneous: 5000}], which sum to 70000. *)
Theorem C1_updateIncome_total_only_sum_mismatch :
  let result := updateIncome 2 "u" "2024-01" (Some (JNum 80000)) None afterSet in
  result.1 = Replied 200 (mkIncome 80000
               (<["miscellaneous" := 5000]> (<["salary" := 65000]> ∅)) 2)
  ∧ (total <$> stored result.2 "u" "2024-01") = Some 80000
  ∧ (sumValues ∘ sources <$> stored result.2 "u" "2024-01") = Some 70000.
Proof.
  split; [reflexivity |]. split; vm_compute; reflexivity.
Qed.

(** The same overwrite on the create path. *)
Example setIncome_miscellaneous_key_sum_mismatch :
  (setIncome 1 "u" (Some (JStr "2024-01")) (Some (JNum 100))
     (Some (JObj (<["miscellaneous" := JNum 20]> (<["salary" := JNum 50]> ∅))))
     db0).1
  = Replied 201 (mkIncome 100
      (<["miscellaneous" := 30]> (<["salary" := 50]> ∅)) 1).
Proof. reflexivity. Qed.

(** C4, evaluated on the code. With a record stored for the month, the
    update whose body is [{total: 0}] is turned away by the presence check:
    [!total] holds for 0. *)
Theorem C4_updateIncome_total_zero_rejected_as_missing :
  is_Some (stored afterSet "u" "2024-01")
  ∧ updateIncome 2 "u" "2024-01" (Some (JNum 0)) None afterSet
    = (Failed 400 EitherTotalOrSources, afterSet).
Proof. split; [by eexists | reflexivity]. Qed.

(** The presence check is a truthiness test: it lets a body through
    exactly when [total] or [sources] is truthy. *)
Lemma checkUpdateBody_presence month reqTotal reqSources :
  isMonth month = true →
  checkUpdateBody month reqTotal reqSources = inl (Failed 400 EitherTotalOrSources)
  ↔ truthy reqTotal = false ∧ truthy reqSources = false.
Proof.
  intros Hm. unfold checkUpdateBody. rewrite Hm. simpl. split.
  - destruct (truthy reqTotal) eqn:Ht, (truthy reqSources) eqn:Hs;
      simpl; try done.
    all: destruct reqTotal as [[]|], reqSources as [[]|];
      simpl in *; try discriminate.
    all: repeat case_match; discriminate.
  - intros [Ht Hs]. by rewrite Ht, Hs.
Qed.

(** Once the body is accepted, the answer is 404 exactly when no record
    is stored for the month. *)
Lemma updateIncome_not_found now userId month reqTotal reqSources db tot srcs :
  checkUpdateBody month reqTotal reqSources = inr (tot, srcs) →
  (updateIncome now userId month reqTotal reqSources db).1
    = Failed 404 NoIncomeRecordForMonth
  ↔ stored db userId month = None.
Proof.
  intros Hbody. unfold updateIncome, stored. rewrite Hbody.
  destruct (db !! userId ≫= (.!! month)) as [existing|]; [| done].
  split; [| done].
  destruct tot, srcs; simpl; repeat case_match; discriminate.
Qed.

(** C10. For a well-formed month, [deleteIncome] answers 200 whenever the
    user has an income document, whether or not the month is in it (when
    it is not, the collection is left as it was), and answers 404 exactly
    when the user has no document at all. *)
Theorem C10_deleteIncome_reports_success_for_any_document
    (userId month : string) (db : IncomeDb) :
  isMonth month = true →
  (∀ income, db !! userId = Some income →
     (deleteIncome userId month db).1 = Replied 200 IncomeRecordDeleted
     ∧ stored (deleteIncome userId month db).2 userId month = None
     ∧ (income !! month = None → (deleteIncome userId month db).2 = db))
  ∧ ((deleteIncome userId month db).1 = Failed 404 NoIncomeRecordsForUser
     ↔ db !! userId = None).
Proof.
  intros Hm. unfold deleteIncome, stored. rewrite Hm. simpl. split.
  - intros income Hdoc. rewrite Hdoc. simpl. split; [done |]. split.
    + rewrite lookup_insert_eq. simpl. apply lookup_delete_eq.
    + intros Habsent. rewrite delete_id by done. by apply insert_id.
  - destruct (db !! userId); simpl; split; intros; done.
Qed.

(** A user whose only record is for January deletes February. *)
Lemma C10_deleteIncome_witness :
  isMonth "2024-02" = true
  ∧ (deleteIncome "u" "2024-02" afterSet).1 = Replied 200 IncomeRecordDeleted
  ∧ (deleteIncome "u" "2024-02" afterSet).2 = afterSet.
Proof.
  split; [reflexivity |].
  destruct (C10_deleteIncome_reports_success_for_any_document
              "u" "2024-02" afterSet eq_refl) as [Hdoc _].
  destruct (Hdoc _ eq_refl) as (Hok & _ & Hsame).
  split; [exact Hok | apply Hsame; reflexivity].
Defined.

End IncomeProps.

Module EntriesProps.
Import Js Entries Scenarios.

(** An object that passes the schema is a typed entry with the same
    amount. *)
Lemma entrySchemaOk_toEntry (o : gmap string json) :
  entrySchemaOk o = true →
  ∃ e, toEntry (JObj o) = Some e ∧ o !! "amount" = Some (JNum e.(amount))
       ∧ o !! "code" = Some (JStr e.(code)).
Proof.
  unfold entrySchemaOk, toEntry. intros Hok.
  destruct (o !! "code") as [[]|]; try discriminate.
  destruct (o !! "amount") as [[]|]; try discriminate.
  destruct (o !! "item") as [[]|]; try discriminate.
  eauto.
Qed.

Lemma checkEntries_AllValid (l : list json) :
  checkEntries l = AllValid ↔ Forall schemaValid l.
Proof.
  induction l as [| entry rest IH]; simpl.
  - split; [constructor | done].
  - destruct entry as [| | | | | o]; try (split; [discriminate |]).
    1-5: intros Hall; inversion Hall as [| ? ? [o [Ho _]] _]; discriminate.
    destruct (entrySchemaOk o) eqn:Hok.
    + rewrite IH. split.
      * intros Hrest. constructor; [by exists o | done].
      * intros Hall. by inversion Hall.
    + split; [discriminate |].
      intros Hall. inversion Hall as [| ? ? [o' [Ho' Hok']] _].
      injection Ho' as <-. congruence.
Qed.

Lemma omap_toEntry_length (l : list json) :
  Forall schemaValid l → List.length (omap toEntry l) = List.length l.
Proof.
  induction 1 as [| entry rest [o [-> Hok]] _ IH]; [done |].
  destruct (entrySchemaOk_toEntry o Hok) as (e & He & _).
  cbn [omap list_omap]. rewrite He. simpl. by rewrite IH.
Qed.

Lemma entriesAt_pushEntries userId yearMonth day new (db : EntriesDb) :
  entriesAt (pushEntries userId yearMonth day new db) userId yearMonth day
  = entriesAt db userId yearMonth day ++ new.
Proof.
  unfold pushEntries. unfold entriesAt at 1.
  rewrite lookup_insert_eq. simpl.
  rewrite lookup_insert_eq. simpl.
  by rewrite lookup_insert_eq.
Qed.

(** C9 as stated fails: the request whose only entry has amount -5 is
    answered 201. *)
Lemma C9_negative_amount_accepted :
  ¬ rejects_negative_amounts "u" [refund] (Some (JStr "2024-01-15")) noEntries.
Proof.
  unfold rejects_negative_amounts. intros Hclaim.
  destruct Hclaim as [[status [err Hfailed]] _].
  - exists (<["code" := JStr "FOD-GRO"]>
             (<["amount" := JNum (-5)]> (<["item" := JStr "returned milk"]> ∅))), (-5).
    split; [apply list_elem_of_singleton; reflexivity |].
    split; [reflexivity | lia].
  - vm_compute in Hfailed. discriminate.
Qed.

(** The entry is stored with its negative amount. *)
Example refund_is_stored :
  amount <$> entriesAt
    (addUserEntries "u" (Some (JArr [refund])) (Some (JStr "2024-01-15")) noEntries).2
    "u" "2024-01" "15"
  = [-5].
Proof. vm_compute. reflexivity. Qed.

(** C9, amended. [addUserEntries] persists only when every submitted
    entry passes the type schema, and then appends exactly the submitted
    entries to the day's list; any other outcome leaves the collection as
    it was. *)
Theorem C9_addUserEntries_schema_gate
    (userId : string) (reqEntries reqDate : option json) (db : EntriesDb) :
  let result := addUserEntries userId reqEntries reqDate db in
  (result.1 = Replied 201 EntriesAdded →
     ∃ submitted date,
       reqEntries = Some (JArr submitted) ∧ reqDate = Some (JStr date)
       ∧ Forall schemaValid submitted
       ∧ List.length (omap toEntry submitted) = List.length submitted
       ∧ entriesAt result.2 userId (substring 0 7 date) (substring 8 2 date)
         = entriesAt db userId (substring 0 7 date) (substring 8 2 date)
           ++ omap toEntry submitted)
  ∧ (result.1 ≠ Replied 201 EntriesAdded → result.2 = db).
Proof.
  cbv zeta. unfold addUserEntries.
  destruct reqEntries as [[| | | | [| first others] |]|];
    try (simpl; split; [discriminate | done]).
  destruct reqDate as [[| | | date | |]|];
    try (simpl; split; [discriminate | done]).
  destruct (isDate date); simpl negb; cbv iota; [| split; [discriminate | done]].
  destruct (checkEntries (first :: others)) eqn:Hcheck;
    try (split; [discriminate | done]).
  apply checkEntries_AllValid in Hcheck.
  cbn [fst snd]. split; [| done].
  intros _. exists (first :: others), date.
  split; [done |]. split; [done |]. split; [done |].
  split; [by apply omap_toEntry_length | apply entriesAt_pushEntries].
Qed.

Lemma C9_addUserEntries_witness :
  entriesAt
    (addUserEntries "u" (Some (JArr [refund])) (Some (JStr "2024-01-15")) noEntries).2
    "u" "2024-01" "15"
  = omap toEntry [refund].
Proof.
  destruct (C9_addUserEntries_schema_gate "u" (Some (JArr [refund]))
              (Some (JStr "2024-01-15")) noEntries) as [Hstored _].
  destruct (Hstored eq_refl) as (submitted & date & Hs & Hd & _ & _ & Hat).
  injection Hs as <-. injection Hd as <-. exact Hat.
Defined.

End EntriesProps.

Module BudgetsProps.
Import Js Entries Budgets JsProps Scenarios.

(** The scenario of the specification, through the handler. *)
Example remaining_scenario :
  let result :=
    remaining taxonomy "u" "2024-01" (budgetsOf envelope)
      (entriesOf [spent "FOD-GRO" 300; spent "TRN-FUEL" 200]) in
  (statusOf result = Some 200%nat)
  ∧ (totalSpent <$> payloadOf result) = Some 500
  ∧ (totalRemaining <$> payloadOf result) = Some 2500
  ∧ (payloadOf result ≫= λ r, r.(expensesByCategory) !! "FOD") = Some 300
  ∧ (payloadOf result ≫= λ r, r.(expensesByCategory) !! "MIS") = Some 200
  ∧ (payloadOf result ≫= λ r, r.(remainingBudgets) !! "FOD") = Some 700
  ∧ (payloadOf result ≫= λ r, r.(remainingBudgets) !! "HOU-RENT") = Some 1500
  ∧ (payloadOf result ≫= λ r, r.(remainingBudgets) !! "MIS") = Some 300.
Proof. cbv zeta. repeat split; vm_compute; reflexivity. Qed.

Lemma sumValues_addTo key amount (expenses : gmap string Z) :
  sumValues (addTo key amount expenses) = sumValues expenses + amount.
Proof.
  unfold addTo. destruct (expenses !! key) as [old |] eqn:Hkey; simpl.
  - rewrite (sumValues_insert_present _ _ old) by done. lia.
  - rewrite sumValues_insert_fresh by done. lia.
Qed.

Lemma addTo_lookup key amount (expenses : gmap string Z) other :
  is_Some (addTo key amount expenses !! other) →
  other = key ∨ is_Some (expenses !! other).
Proof.
  unfold addTo. destruct (decide (key = other)) as [-> | Hne]; [by left |].
  rewrite lookup_insert_ne by done. by right.
Qed.

(** Every step moves the amount of the entry into exactly one place. *)
Lemma accumulate_total taxonomy monthlyBudget acc entry :
  let acc' := accumulate taxonomy monthlyBudget acc entry in
  sumValues acc'.1 + acc'.2 = sumValues acc.1 + acc.2 + entry.(amount).
Proof.
  cbv zeta. unfold accumulate.
  repeat case_match; simpl; rewrite ?sumValues_addTo; lia.
Qed.

(** Only keys with a non-zero allocation ever receive spend. *)
Lemma accumulate_keys taxonomy monthlyBudget acc entry :
  (∀ key, is_Some (acc.1 !! key) → hasBudget monthlyBudget key = true) →
  ∀ key, is_Some ((accumulate taxonomy monthlyBudget acc entry).1 !! key) →
         hasBudget monthlyBudget key = true.
Proof.
  intros Hacc key. unfold accumulate.
  repeat case_match; simpl; try apply Hacc.
  all: intros [-> | Hold]%addTo_lookup; [| by apply Hacc].
  - done.
  - match goal with H : _ && _ = true |- _ => apply andb_prop in H as [_ H] end.
    done.
Qed.

Lemma foldl_accumulate_total taxonomy monthlyBudget monthly acc :
  let acc' := foldl (accumulate taxonomy monthlyBudget) acc monthly in
  sumValues acc'.1 + acc'.2
  = sumValues acc.1 + acc.2 + foldr Z.add 0 (amount <$> monthly).
Proof.
  cbv zeta. revert acc.
  induction monthly as [| entry rest IH]; intros acc; [simpl; lia |].
  change (foldl (accumulate taxonomy monthlyBudget) acc (entry :: rest))
    with (foldl (accumulate taxonomy monthlyBudget)
            (accumulate taxonomy monthlyBudget acc entry) rest).
  rewrite IH, fmap_cons. cbn [foldr].
  pose proof (accumulate_total taxonomy monthlyBudget acc entry) as Hstep.
  cbv zeta in Hstep. lia.
Qed.

Lemma foldl_accumulate_keys taxonomy monthlyBudget monthly acc :
  (∀ key, is_Some (acc.1 !! key) → hasBudget monthlyBudget key = true) →
  ∀ key, is_Some ((foldl (accumulate taxonomy monthlyBudget) acc monthly).1 !! key) →
         hasBudget monthlyBudget key = true.
Proof.
  revert acc. induction monthly as [| entry rest IH]; intros acc Hacc; simpl; [done |].
  apply IH. by apply accumulate_keys.
Qed.

(** [totalSpent] is the sum of the amounts of the month's entries, and
    [totalRemaining] is what is left of the declared total. *)
Lemma reconcile_totals taxonomy month monthlyBudget monthly :
  let r := reconcile taxonomy month monthlyBudget monthly in
  r.(totalSpent) = foldr Z.add 0 (amount <$> monthly)
  ∧ r.(totalRemaining) = monthlyBudget.(total) - r.(totalSpent).
Proof.
  cbv zeta. unfold reconcile.
  pose proof (foldl_accumulate_total taxonomy monthlyBudget monthly (∅, 0)) as Hsum.
  fold (spend taxonomy monthlyBudget monthly) in Hsum.
  destruct (spend taxonomy monthlyBudget monthly) as [expenses misc].
  simpl in *. rewrite sumValues_empty in Hsum. split; lia.
Qed.

(** When the budget has no non-zero allocation under the key [MIS], the
    spend mapping of the response adds up to [totalSpent]. *)
Lemma reconcile_spend_sum taxonomy month monthlyBudget monthly :
  hasBudget monthlyBudget "MIS" = false →
  let r := reconcile taxonomy month monthlyBudget monthly in
  sumValues r.(expensesByCategory) = r.(totalSpent).
Proof.
  intros Hmis. cbv zeta. unfold reconcile.
  pose proof (foldl_accumulate_keys taxonomy monthlyBudget monthly (∅, 0)) as Hkeys.
  fold (spend taxonomy monthlyBudget monthly) in Hkeys.
  destruct (spend taxonomy monthlyBudget monthly) as [expenses misc].
  simpl in *.
  rewrite sumValues_insert_fresh; [done |].
  destruct (expenses !! "MIS") as [v |] eqn:Hv; [| done].
  rewrite Hkeys in Hmis; [done | | by eexists].
  intros key [v' Hv']. by rewrite lookup_empty in Hv'.
Qed.

(** C2, evaluated on the code. The budget allocates 200 to the
    taxonomy's [MIS] category and the month has one [MIS] entry of 50:
    [totalSpent] is 50, but the response's spend mapping is [{MIS: 0}],
    the 50 having been overwritten by the miscellaneous counter. *)
Theorem C2_MIS_category_spend_overwritten :
  let result :=
    remaining taxonomy "u" "2024-01" (budgetsOf withMis) (entriesOf [spent "MIS" 50]) in
  (totalSpent <$> payloadOf result) = Some 50
  ∧ (totalRemaining <$> payloadOf result) = Some 950
  ∧ (expensesByCategory <$> payloadOf result) = Some {["MIS" := 0]}
  ∧ (sumValues ∘ expensesByCategory <$> payloadOf result) = Some 0.
Proof.
  cbv zeta. split; [vm_compute; reflexivity |]. split; [vm_compute; reflexivity |].
  split; [reflexivity | vm_compute; reflexivity].
Qed.

(** On budgets whose allocations are all non-zero (and that have no
    category named by the empty string) the loop files every entry in the
    bucket the specification names. *)
Lemma accumulate_refines_spec taxonomy monthlyBudget acc entry :
  (∀ key allocated, monthlyBudget.(categories) !! key = Some allocated → allocated ≠ 0) →
  monthlyBudget.(categories) !! "" = None →
  accumulate taxonomy monthlyBudget acc entry
  = accumulate_spec taxonomy monthlyBudget acc entry.
Proof.
  intros Hnonzero Hempty.
  assert (Hhas : ∀ key, hasBudget monthlyBudget key = true
                        ↔ is_Some (monthlyBudget.(categories) !! key)).
  { intros key. unfold hasBudget.
    destruct (monthlyBudget.(categories) !! key) as [allocated |] eqn:Hkey.
    - specialize (Hnonzero key allocated Hkey).
      split; [by eexists |]. intros _. apply negb_true_iff. lia.
    - split; [done | by intros [? ?]]. }
  unfold accumulate, accumulate_spec, bucket_spec.
  destruct (hasBudget monthlyBudget entry.(code)) eqn:Hcode.
  - apply Hhas in Hcode. by rewrite decide_True.
  - rewrite decide_False by (rewrite <- Hhas; congruence).
    destruct (parentOf taxonomy entry.(code)) as [parentCategory |]; [| done].
    destruct (hasBudget monthlyBudget parentCategory) eqn:Hparent.
    + apply Hhas in Hparent as Hkey. rewrite decide_True by done.
      destruct (String.eqb_spec parentCategory "") as [-> | _]; [| done].
      rewrite Hempty in Hkey. by destruct Hkey.
    + rewrite andb_false_r.
      by rewrite decide_False by (rewrite <- Hhas; congruence).
Qed.

(** C3, evaluated on the code. With [FOD] budgeted at 0 and one [FOD]
    entry of 50, the specification names the bucket [FOD]; the handler
    reports the 50 under [MIS] and nothing under [FOD]. *)
Theorem C3_zero_allocation_spend_goes_to_miscellaneous :
  let result :=
    remaining taxonomy "u" "2024-01" (budgetsOf zeroFood) (entriesOf [spent "FOD" 50]) in
  is_Some (zeroFood.(categories) !! "FOD")
  ∧ bucket_spec taxonomy zeroFood "FOD" = Some "FOD"
  ∧ accumulate_spec taxonomy zeroFood (∅, 0) (spent "FOD" 50) = ({["FOD" := 50]}, 0)
  ∧ accumulate taxonomy zeroFood (∅, 0) (spent "FOD" 50) = (∅, 50)
  ∧ (expensesByCategory <$> payloadOf result) = Some {["MIS" := 50]}
  ∧ (remainingBudgets <$> payloadOf result)
    = Some (<["MIS" := 50]> {["FOD" := 0]}).
Proof.
  cbv zeta. split; [by eexists |]. repeat split; reflexivity.
Qed.

End BudgetsProps.

Module SavingsProps.
Import Js Savings Scenarios.

Example monthsOf_2024 :
  monthsOf "2024"
  = ["2024-01"; "2024-02"; "2024-03"; "2024-04"; "2024-05"; "2024-06";
     "2024-07"; "2024-08"; "2024-09"; "2024-10"; "2024-11"; "2024-12"].
Proof. reflexivity. Qed.

Example yearly_2024 :
  let result := yearlySavings afterSet yearEntries "u" "2024" in
  (summary <$> payloadOf result) = Some (mkSummary 75000 1500 73500 2)
  ∧ (bestSavingsMonth ∘ insights <$> payloadOf result)
    = Some (mkMonthData "2024-01" 75000 500 74500)
  ∧ (worstSavingsMonth ∘ insights <$> payloadOf result)
    = Some (mkMonthData "2024-03" 0 1000 (-1000)).
Proof. cbv zeta. repeat split; vm_compute; reflexivity. Qed.

End SavingsProps.

Module SavingsArithProps.
Import Js Numbers SavingsArith Cents.

Lemma exactZ_Exact : Exact exactZ.
Proof. constructor; simpl; intros; lia. Qed.

(** In exact arithmetic differences add up componentwise. *)
Lemma Exact_interchange (A : Arith) (a b c d : num A) :
  Exact A →
  A.(add) (A.(sub) a b) (A.(sub) c d) = A.(sub) (A.(add) a c) (A.(add) b d).
Proof.
  intros HA.
  rewrite <- (add_sub A HA (A.(add) (A.(sub) a b) (A.(sub) c d)) (A.(add) b d)).
  f_equal.
  rewrite <- (add_assoc A HA (A.(sub) a b) (A.(sub) c d) (A.(add) b d)).
  rewrite (add_comm A HA b d), (add_assoc A HA (A.(sub) c d) d b).
  rewrite (sub_add A HA c d), (add_comm A HA c b).
  rewrite (add_assoc A HA (A.(sub) a b) b c).
  by rewrite (sub_add A HA a b).
Qed.

Lemma Exact_sub_zero (A : Arith) : Exact A → A.(sub) A.(zero) A.(zero) = A.(zero).
Proof.
  intros HA. rewrite <- (add_zero A HA A.(zero)) at 1. apply (add_sub A HA).
Qed.

(** The yearly loop in closed form: one line per month, and the two
    totals are the running sums of what was read. *)
Lemma yearlyLoop_running_sums (A : Arith) (readIncome readExpenses : string → num A)
    months monthlyData inc exp :
  foldl (yearlyStep A readIncome readExpenses) (monthlyData, inc, exp) months
  = (monthlyData ++ (lineOf A readIncome readExpenses <$> months),
     foldl A.(add) inc (readIncome <$> months),
     foldl A.(add) exp (readExpenses <$> months)).
Proof.
  revert monthlyData inc exp.
  induction months as [| month rest IH]; intros monthlyData inc exp.
  - simpl. by rewrite app_nil_r.
  - change (foldl (yearlyStep A readIncome readExpenses) (monthlyData, inc, exp)
              (month :: rest))
      with (foldl (yearlyStep A readIncome readExpenses)
              (yearlyStep A readIncome readExpenses (monthlyData, inc, exp) month) rest).
    unfold yearlyStep at 2. rewrite IH. rewrite <- app_assoc. done.
Qed.

(** With exact arithmetic the savings of the lines add up to the
    difference of the two running sums. *)
Lemma savings_sum_exact (A : Arith) (readIncome readExpenses : string → num A)
    (months : list string) (inc exp : num A) :
  Exact A →
  foldl A.(add) (A.(sub) inc exp) (savings <$> (lineOf A readIncome readExpenses <$> months))
  = A.(sub) (foldl A.(add) inc (readIncome <$> months))
            (foldl A.(add) exp (readExpenses <$> months)).
Proof.
  intros HA. revert inc exp.
  induction months as [| month rest IH]; intros inc exp; [done |].
  rewrite !fmap_cons. cbn [foldl]. rewrite <- IH. f_equal.
  unfold lineOf. cbn [savings]. by apply Exact_interchange.
Qed.

(** The amounts with cents, evaluated: the lines' savings add up to a
    value below [summary.totalSavings]. *)
Example yearly_with_cents :
  match yearlySavings binary64 fifty groceriesAndStamp "u" "2024" with
  | Replied status r =>
      Some (status, sumOf binary64 savings r.(monthlyBreakdown), r.(summary).(totalSavings))
  | _ => None
  end
  = Some (200%nat, justBelowFour, four).
Proof. vm_compute. reflexivity. Qed.




End SavingsArithProps.

Module ChatProps.
Import Js Chat Scenarios.

Lemma launch_records env intents k :
  (launch k intents).1 ++ (fire env <$> (launch k intents).2)
  ≡ₚ recordsFrom env k intents.
Proof.
  revert k. induction intents as [| i rest IH]; intros k; [done |].
  unfold recordsFrom. rewrite imap_cons. cbn [launch].
  specialize (IH (S k)). unfold recordsFrom in IH.
  destruct (launch (S k) rest) as [results pending]. cbn [fst snd] in IH.
  replace (imap ((λ j, recordOf env (k + j)) ∘ S) rest)
    with (imap (λ j, recordOf env (S k + j)) rest)
    by (apply imap_ext; intros; simpl; f_equal; lia).
  rewrite Nat.add_0_r. unfold recordOf at 1.
  destruct (start i) as [r | message]; cbn [fst snd].
  - rewrite fmap_cons. rewrite <- Permutation_middle.
    by constructor.
  - simpl. by constructor.
Qed.

Lemma settleAll_records env n order pending results :
  n = List.length pending →
  settleAll env n order pending results ≡ₚ results ++ (fire env <$> pending).
Proof.
  revert order pending results.
  induction n as [| n IH]; intros order pending results Hn.
  - destruct pending; [| discriminate]. simpl. by rewrite app_nil_r.
  - cbn [settleAll].
    assert (Hlt : (hd O order mod List.length pending < List.length pending)%nat)
      by (apply Nat.mod_upper_bound; lia).
    destruct (lookup_lt_is_Some_2 pending _ Hlt) as [p Hp].
    rewrite Hp.
    rewrite IH by (rewrite length_delete by eauto; lia).
    assert (Hperm : fire env <$> pending
                    ≡ₚ fire env p :: (fire env <$> delete (hd O order mod List.length pending)%nat pending)).
    { rewrite <- fmap_cons. by apply fmap_Permutation, delete_Permutation. }
    rewrite Hperm, <- app_assoc. done.
Qed.

(** Every intent is recorded exactly once, with the record it would get
    on its own. *)
Lemma collect_records env intents :
  collect env intents ≡ₚ imap (recordOf env) intents.
Proof.
  unfold collect.
  pose proof (launch_records env intents 0) as Hlaunch.
  destruct (launch 0 intents) as [results pending]. cbn [fst snd] in Hlaunch.
  rewrite settleAll_records by done.
  rewrite Hlaunch. unfold recordsFrom. done.
Qed.

Lemma collect_length env intents :
  List.length (collect env intents) = List.length intents.
Proof. by rewrite collect_records, length_imap. Qed.

(** The scenario of the specification: one intent succeeds, the other
    targets a month without a record. *)
Example isolation_scenario :
  success <$> collect (answering foundThenMissing putIsNotFound [1%nat]) foundThenMissing
  = [false; true].
Proof. vm_compute. reflexivity. Qed.

(** Two supported intents: the numbering follows the order in which the
    requests settle. *)
Example settle_order_decides_numbering :
  (res_intent <$> collect (answering foundThenMissing alwaysResolves [0%nat]) foundThenMissing)
  = foundThenMissing
  ∧ (res_intent <$> collect (answering foundThenMissing alwaysResolves [1%nat]) foundThenMissing)
    = reverse foundThenMissing.
Proof. split; reflexivity. Qed.

(** An intent whose name is none of the labels of the [switch] reaches
    the [default] case. *)
Lemma start_default (i : Intent) :
  i.(intent) ∉ ChatTable.supportedIntents → start i = Raised "Unsupported intent".
Proof.
  intros Hout. unfold start.
  repeat match goal with
         | |- context [String.eqb ?name ?label] =>
             destruct (String.eqb_spec name label) as [Hname | ?];
             [exfalso; apply Hout; rewrite Hname; apply list_elem_of_In; simpl; tauto |]
         end.
  reflexivity.
Qed.

(** The requests in flight after the [map] are those of the intents that
    send one, in the order of the list. *)
Lemma requestsSent_requestOf (intents : list Intent) :
  requestsSent intents = omap ChatTable.requestOf intents.
Proof.
  unfold requestsSent. generalize 0%nat.
  induction intents as [| i rest IH]; intros k; [done |].
  cbn [launch omap list_omap]. unfold ChatTable.requestOf at 1.
  specialize (IH (S k)). destruct (launch (S k) rest) as [pushed pending].
  destruct (start i) as [r | reason]; cbn [fst snd] in *.
  - by rewrite fmap_cons, IH.
  - done.
Qed.

(** The record of an intent on its own, field by field. *)
Lemma recordOf_cases (env : Env) (K : nat) (i : Intent) :
  match start i with
  | Raised message =>
      recordOf env K i
      = mkResult i (JObj (<["error" := JBool true]> {["message" := JStr message]})) false
  | Sent r =>
      match env.(axios) K r with
      | Resolved data => recordOf env K i = mkResult i data true
      | Rejected message =>
          recordOf env K i
          = mkResult i (JObj (<["error" := JBool true]> {["message" := JStr message]})) false
      end
  end.
Proof.
  unfold recordOf. destruct (start i) as [r | message]; [| reflexivity].
  destruct (env.(axios) K r) as [data | message]; reflexivity.
Qed.

(** C7. When the resolver returns no intent, or the lone [unknown], the
    handler answers 400 with the fixed clarification and sends nothing
    downstream. *)
Theorem C7_no_valid_intent_fails_fast (env : Env) (message : string) :
  message ≠ "" →
  (env.(extractIntent) message = []
   ∨ ∃ only, env.(extractIntent) message = [only] ∧ only.(intent) = "unknown") →
  chat env (Some (JStr message))
  = (Answered (mkReply 400 (Some "No valid intent could be determined from your question")
                 clarification None None),
     []).
Proof.
  intros Hmessage Hintents. unfold chat.
  apply String.eqb_neq in Hmessage. rewrite Hmessage.
  destruct Hintents as [-> | (only & -> & Hunknown)]; simpl.
  - done.
  - by rewrite Hunknown.
Qed.

Lemma C7_unknown_witness :
  chat (answering [mkIntent "unknown" (Some ∅)] alwaysResolves []) (Some (JStr "hello"))
  = (Answered (mkReply 400 (Some "No valid intent could be determined from your question")
                 clarification None None),
     []).
Proof.
  apply C7_no_valid_intent_fails_fast.
  - discriminate.
  - right. eexists. split; reflexivity.
Defined.

Lemma resultKey_inj (a b : nat) : resultKey a = resultKey b → a = b.
Proof.
  unfold resultKey. intros Hkey.
  apply (inj (String.append "result")), (inj pretty) in Hkey. lia.
Qed.

Lemma combine_snoc (results : list Result) (last : Result) :
  combine (results ++ [last])
  = <[resultKey (List.length results) := combinedEntry last]> (combine results).
Proof.
  unfold combine. rewrite imap_app, foldl_app. simpl.
  by rewrite Nat.add_0_r.
Qed.

(** The combined data numbers the records in the order in which they
    were pushed: [result<K+1>] is the [K]-th element of [results]. *)
Lemma combine_lookup (results : list Result) (K : nat) :
  combine results !! resultKey K = combinedEntry <$> results !! K.
Proof.
  induction results as [| last results IH] using rev_ind.
  - done.
  - rewrite combine_snoc.
    destruct (decide (K = List.length results)) as [-> | Hne].
    + rewrite lookup_insert_eq. by rewrite list_lookup_middle.
    + rewrite lookup_insert_ne by (intros Hkey; apply resultKey_inj in Hkey; lia).
      rewrite IH. destruct (decide (K < List.length results)%nat) as [Hlt | Hge].
      * by rewrite lookup_app_l.
      * rewrite (lookup_ge_None_2 results K) by lia.
        by rewrite (lookup_ge_None_2 (results ++ [last]) K)
          by (rewrite length_app; simpl; lia).
Qed.

(** C5. When the resolver returns at least one intent and not the lone
    [unknown]:
    - the results array holds exactly one record per intent (it is a
      permutation of the intents' own records);
    - the record of the intent at position [K] is decided by that intent
      and its own request alone: [{intent, data: {error: true, message},
      success: false}] when its [switch] case throws (with the message
      [Unsupported intent] for a name that is no label of the [switch]) or
      its request is rejected, [{intent, data, success: true}] with the
      response's data when its request resolves;
    - the handler answers 200, never 400 or 500, with the intents, with the
      phrasing of the results and with their data: the data of the record
      itself when there is one record, and otherwise an object holding every
      record, the [J]-th pushed under [result<J+1>] as [{intent: name,
      data}];
    - the requests sent are those of the intents that get as far as sending
      one. *)
Theorem C5_every_intent_is_recorded_once (env : Env) (message : string) :
  message ≠ "" →
  noValidIntent (env.(extractIntent) message) = false →
  let intents := env.(extractIntent) message in
  let results := collect env intents in
  results ≡ₚ imap (recordOf env) intents
  ∧ List.length results = List.length intents
  ∧ (∀ K i, intents !! K = Some i →
       recordOf env K i ∈ results
       ∧ (i.(intent) ∉ ChatTable.supportedIntents →
            start i = Raised "Unsupported intent")
       ∧ match start i with
         | Raised reason =>
             recordOf env K i
             = mkResult i (JObj (<["error" := JBool true]> {["message" := JStr reason]}))
                 false
         | Sent r =>
             match env.(axios) K r with
             | Resolved data => recordOf env K i = mkResult i data true
             | Rejected reason =>
                 recordOf env K i
                 = mkResult i
                     (JObj (<["error" := JBool true]> {["message" := JStr reason]})) false
             end
         end)
  ∧ chat env (Some (JStr message))
    = (Answered
         (mkReply 200 None
            (match results with
             | [single] => env.(generateResponse) message single.(res_data)
             | _ => env.(generateMultiResponse) message results
             end)
            (Some intents)
            (Some (match results with
                   | [single] => single.(res_data)
                   | _ => JObj (combine results)
                   end))),
       omap ChatTable.requestOf intents)
  ∧ (∀ J record, results !! J = Some record →
       combine results !! resultKey J
       = Some (JObj (<["intent" := JStr record.(res_intent).(intent)]>
                       {["data" := record.(res_data)]})))
  ∧ (∀ J, (List.length intents ≤ J)%nat → combine results !! resultKey J = None).
Proof.
  intros Hmessage Hvalid intents results. subst results intents.
  pose proof (collect_records env (env.(extractIntent) message)) as Hrecords.
  split; [exact Hrecords |]. split; [apply collect_length |].
  split; [| split; [| split]].
  - intros K i Hi. split; [| split].
    + rewrite Hrecords. apply list_elem_of_lookup. exists K.
      by rewrite list_lookup_imap, Hi.
    + apply start_default.
    + apply recordOf_cases.
  - unfold chat. apply String.eqb_neq in Hmessage. rewrite Hmessage.
    cbv zeta. rewrite Hvalid.
    rewrite requestsSent_requestOf.
    destruct (collect env (env.(extractIntent) message)) as [| single [| second others]];
      reflexivity.
  - intros J record HJ. rewrite combine_lookup, HJ. reflexivity.
  - intros J HJ. rewrite combine_lookup.
    rewrite lookup_ge_None_2; [done |]. by rewrite collect_length.
Qed.

Lemma C5_isolation_witness :
  let env := answering foundThenMissing putIsNotFound [1%nat] in
  collect env foundThenMissing ≡ₚ imap (recordOf env) foundThenMissing
  ∧ (chat env (Some (JStr "what is my budget"))).1
    = Answered
        (mkReply 200 None "several answers" (Some foundThenMissing)
           (Some (JObj (combine (collect env foundThenMissing))))).
Proof.
  intros env.
  destruct (C5_every_intent_is_recorded_once env "what is my budget")
    as (Hrecords & _ & _ & Hchat & _); [discriminate | reflexivity |].
  split; [exact Hrecords |].
  cbv zeta in Hchat. rewrite Hchat. reflexivity.
Defined.

(** A supported intent followed by an unsupported one: the unsupported
    one is recorded during the [map], the supported one when its request
    settles, whatever the network and the settle order. *)
Lemma collect_sent_then_raised env first request second message :
  start first = Sent request → start second = Raised message →
  collect env [first; second]
  = [failure second message; settled first (env.(axios) 0%nat request)].
Proof.
  intros Hfirst Hsecond. unfold collect. cbn [launch].
  rewrite Hfirst, Hsecond. cbn [List.length settleAll].
  by rewrite Nat.mod_1_r.
Qed.

(** C6 as stated fails: with [getBudget] first and an unsupported intent
    second, [result1] does not hold the first intent. *)
Lemma C6_result1_is_not_the_first_intent :
  ¬ combined_in_intent_order
      (answering budgetThenUnsupported alwaysResolves []) "budget and receipt".
Proof.
  unfold combined_in_intent_order. intros (combinedData & Hreply & Horder).
  specialize (Horder 0%nat _ eq_refl).
  injection Hreply as Hdata. subst combinedData.
  apply (f_equal (λ entry, match entry with
                           | Some (JObj o) => o !! "intent"
                           | _ => None
                           end)) in Horder.
  vm_compute in Horder. discriminate.
Qed.

(** C6, evaluated on the code. Whenever the resolver returns a supported
    intent followed by an unsupported one, [result1] holds the record of
    the second intent and [result2] that of the first, for every network
    and every settle order. *)
Theorem C6_unsupported_intent_takes_result1
    (env : Env) (message : string) (first second : Intent) (request : Request) :
  message ≠ "" →
  env.(extractIntent) message = [first; second] →
  start first = Sent request →
  start second = Raised "Unsupported intent" →
  ∃ r combinedData,
    (chat env (Some (JStr message))).1 = Answered r
    ∧ r.(reply_data) = Some (JObj combinedData)
    ∧ combinedData !! resultKey 0
      = Some (combinedEntry (failure second "Unsupported intent"))
    ∧ combinedData !! resultKey 1
      = Some (combinedEntry (settled first (env.(axios) 0%nat request))).
Proof.
  intros Hmessage Hintents Hfirst Hsecond. unfold chat.
  apply String.eqb_neq in Hmessage. rewrite Hmessage, Hintents.
  cbv zeta. cbn [noValidIntent fst].
  rewrite (collect_sent_then_raised env first request second _ Hfirst Hsecond).
  eexists _, _. split; [reflexivity |]. split; [reflexivity |].
  by rewrite !combine_lookup.
Qed.

Lemma C6_unsupported_intent_witness :
  ∃ r combinedData,
    (chat (answering budgetThenUnsupported alwaysResolves []) (Some (JStr "budget and receipt"))).1
    = Answered r
    ∧ r.(reply_data) = Some (JObj combinedData)
    ∧ (combinedData !! resultKey 0 ≫= λ entry,
         match entry with JObj o => o !! "intent" | _ => None end)
      = Some (JStr "classifyReceipt").
Proof.
  destruct (C6_unsupported_intent_takes_result1
              (answering budgetThenUnsupported alwaysResolves []) "budget and receipt"
              (mkIntent "getBudget" (Some {["month" := JStr "2024-01"]}))
              (mkIntent "classifyReceipt" (Some ∅))
              (mkRequest GET (BudgetRoute (Some (JStr "2024-01"))) ∅))
    as (r & combinedData & Hreply & Hdata & Hfirst & _);
    [discriminate | reflexivity | reflexivity | reflexivity |].
  exists r, combinedData. split; [exact Hreply |]. split; [exact Hdata |].
  rewrite Hfirst. reflexivity.
Defined.

End ChatProps.


(** * Further properties of the income routes *)

Module IncomeMore.
Import Js Income IncomeReads JsProps Scenarios.

Lemma sourcesOk_nonneg (o : gmap string json) :
  sourcesOk o = true → map_Forall (λ _ amount, 0 ≤ amount) (amounts o).
Proof.
  intros Hok%bool_decide_eq_true key amount. unfold amounts.
  rewrite lookup_fmap. destruct (o !! key) as [value |] eqn:Hkey; [| done].
  intros [= <-]. specialize (Hok key value Hkey). simpl in Hok.
  destruct value; try discriminate. simpl. by apply Z.leb_le.
Qed.

Lemma withMiscellaneous_nonneg (srcs : gmap string Z) tot :
  map_Forall (λ _ amount, 0 ≤ amount) srcs →
  map_Forall (λ _ amount, 0 ≤ amount) (withMiscellaneous srcs tot).
Proof.
  intros Hsrcs. unfold withMiscellaneous.
  destruct (Z.ltb_spec (sumValues srcs) tot) as [Hlt | _]; [| done].
  apply map_Forall_insert_2; [lia | done].
Qed.

(** What a successful [setIncome] looks like. *)
Lemma setIncome_Replied now userId reqMonth reqTotal reqSources db status record db' :
  setIncome now userId reqMonth reqTotal reqSources db = (Replied status record, db') →
  ∃ month t finalSources,
    reqMonth = Some (JStr month) ∧ reqTotal = Some (JNum t)
    ∧ isMonth month = true ∧ 0 ≤ t ∧ status = 201%nat
    ∧ record = mkIncome t finalSources now
    ∧ db' = <[userId := <[month := record]> (default ∅ (db !! userId))]> db
    ∧ match reqSources with
      | None => finalSources = {["main" := t]}
      | Some (JObj o) =>
          sourcesOk o = true ∧ sumValues (amounts o) ≤ t
          ∧ finalSources = withMiscellaneous (amounts o) t
      | Some _ => False
      end.
Proof.
  unfold setIncome. intros Hset.
  destruct reqMonth as [[| | | month | |] |]; try discriminate.
  destruct reqTotal as [[| | t | | |] |]; try discriminate.
  destruct (isMonth month) eqn:Hmonth; [| discriminate].
  destruct (Z.ltb_spec t 0) as [| Ht]; [discriminate |]. simpl in Hset.
  destruct reqSources as [[| | | | | o] |]; try discriminate.
  - destruct (sourcesOk o) eqn:Hok; [| discriminate]. simpl in Hset.
    destruct (Z.ltb_spec t (sumValues (amounts o))) as [| Hle]; [discriminate |].
    injection Hset as <- <- <-. eexists month, t, _.
    repeat split; try done.
  - injection Hset as <- <- <-. eexists month, t, _.
    repeat split; done.
Qed.

(** X1. When [setIncome] succeeds, the record it stores carries the
    total of the body, which is not negative, and no negative source; when
    the body has sources, every source other than [miscellaneous] is stored
    with the amount of the body. *)
Theorem setIncome_stores_nonnegative_amounts
    now userId reqMonth reqTotal reqSources db status record db' :
  setIncome now userId reqMonth reqTotal reqSources db = (Replied status record, db') →
  reqTotal = Some (JNum record.(total))
  ∧ 0 ≤ record.(total)
  ∧ map_Forall (λ _ amount, 0 ≤ amount) record.(sources)
  ∧ ∀ o key, reqSources = Some (JObj o) → key ≠ "miscellaneous" →
      record.(sources) !! key = amounts o !! key.
Proof.
  intros Hset.
  destruct (setIncome_Replied _ _ _ _ _ _ _ _ _ Hset)
    as (month & t & finalSources & -> & -> & Hmonth & Ht & -> & -> & -> & Hsources).
  simpl. split; [done |]. split; [done |].
  destruct reqSources as [[| | | | | o] |]; try done.
  - destruct Hsources as (Hok & Hle & ->). split.
    + by apply withMiscellaneous_nonneg, sourcesOk_nonneg.
    + intros o' key [= <-] Hkey. unfold withMiscellaneous.
      destruct (sumValues (amounts o) <? t); [| done].
      by rewrite lookup_insert_ne.
  - subst finalSources. split; [by apply map_Forall_singleton | discriminate].
Qed.

Lemma setIncome_nonnegative_witness :
  (<["miscellaneous" := 10000]> (<["salary" := 65000]> ∅) : gmap string Z) !! "salary"
  = amounts (<["salary" := JNum 65000]> ∅) !! "salary".
Proof.
  assert (Hset : setIncome 1 "u" (Some (JStr "2024-01")) (Some (JNum 75000))
                   (Some (JObj (<["salary" := JNum 65000]> ∅))) db0
                 = (Replied 201 (mkIncome 75000
                      (<["miscellaneous" := 10000]> (<["salary" := 65000]> ∅)) 1), afterSet))
    by reflexivity.
  refine (proj2 (proj2 (proj2 (setIncome_stores_nonnegative_amounts _ _ _ _ _ _ _ _ _ Hset)))
            _ "salary" eq_refl _).
  discriminate.
Defined.

Lemma stored_upsert_eq (db : IncomeDb) userId month record :
  stored (<[userId := <[month := record]> (default ∅ (db !! userId))]> db) userId month
  = Some record.
Proof. unfold stored. rewrite lookup_insert_eq. simpl. apply lookup_insert_eq. Qed.

Lemma stored_upsert_ne (db : IncomeDb) userId month record userId' month' :
  (userId', month') ≠ (userId, month) →
  stored (<[userId := <[month := record]> (default ∅ (db !! userId))]> db) userId' month'
  = stored db userId' month'.
Proof.
  intros Hne. unfold stored.
  destruct (decide (userId' = userId)) as [-> | Huser].
  - rewrite lookup_insert_eq. simpl.
    rewrite lookup_insert_ne by congruence.
    destruct (db !! userId); simpl; [done | apply lookup_empty].
  - by rewrite lookup_insert_ne.
Qed.

Lemma upsert_twice (db : IncomeDb) userId month record :
  let db' := <[userId := <[month := record]> (default ∅ (db !! userId))]> db in
  <[userId := <[month := record]> (default ∅ (db' !! userId))]> db' = db'.
Proof.
  cbv zeta. rewrite lookup_insert_eq. simpl.
  by rewrite !insert_insert_eq.
Qed.

(** Whatever is not a success leaves the collection as it was. *)
Lemma setIncome_unchanged now userId reqMonth reqTotal reqSources db outcome db' :
  setIncome now userId reqMonth reqTotal reqSources db = (outcome, db') →
  payloadOf outcome = None → db' = db.
Proof.
  unfold setIncome. intros Hset Hnone.
  repeat case_match; simplify_eq; done.
Qed.

(** X2. [setIncome] is idempotent: running the same request again on
    the collection it produced gives the same answer and the same
    collection. *)
Theorem setIncome_idempotent now userId reqMonth reqTotal reqSources db outcome db' :
  setIncome now userId reqMonth reqTotal reqSources db = (outcome, db') →
  setIncome now userId reqMonth reqTotal reqSources db' = (outcome, db').
Proof.
  intros Hset. destruct outcome as [status record | status err |].
  - destruct (setIncome_Replied _ _ _ _ _ _ _ _ _ Hset)
      as (month & t & finalSources & -> & -> & Hmonth & Ht & -> & -> & -> & Hsources).
    unfold setIncome. rewrite Hmonth.
    destruct (Z.ltb_spec t 0) as [| _]; [lia |]. simpl.
    destruct reqSources as [[| | | | | o] |]; try done.
    + destruct Hsources as (Hok & Hle & ->). rewrite Hok. simpl.
      destruct (Z.ltb_spec t (sumValues (amounts o))) as [| _]; [lia |].
      f_equal. apply upsert_twice.
    + subst finalSources. f_equal. apply upsert_twice.
  - assert (db' = db) as -> by exact (setIncome_unchanged _ _ _ _ _ _ _ _ Hset eq_refl).
    exact Hset.
  - assert (db' = db) as -> by exact (setIncome_unchanged _ _ _ _ _ _ _ _ Hset eq_refl).
    exact Hset.
Qed.

Lemma setIncome_idempotent_witness :
  setIncome 1 "u" (Some (JStr "2024-01")) (Some (JNum 75000))
    (Some (JObj (<["salary" := JNum 65000]> ∅))) afterSet
  = (Replied 201 (mkIncome 75000
       (<["miscellaneous" := 10000]> (<["salary" := 65000]> ∅)) 1), afterSet).
Proof.
  apply (setIncome_idempotent 1 "u" _ _ _ db0). reflexivity.
Defined.

(** X3. After a successful [setIncome] the GET of the month and the GET
    of all months both read back the record of the answer, and the record of
    every other user or month is as it was. *)
Theorem setIncome_get_round_trip
    now userId reqMonth reqTotal reqSources db status record db' :
  setIncome now userId reqMonth reqTotal reqSources db = (Replied status record, db') →
  ∃ month,
    reqMonth = Some (JStr month)
    ∧ getIncome userId month db' = Replied 200 (Some record)
    ∧ getAllIncome userId db' !! month = Some record
    ∧ ∀ userId' month', (userId', month') ≠ (userId, month) →
        stored db' userId' month' = stored db userId' month'.
Proof.
  intros Hset.
  destruct (setIncome_Replied _ _ _ _ _ _ _ _ _ Hset)
    as (month & t & finalSources & -> & -> & Hmonth & Ht & -> & -> & -> & _).
  exists month. split; [done |]. split; [| split].
  - unfold getIncome. rewrite Hmonth. simpl. by rewrite stored_upsert_eq.
  - unfold getAllIncome. rewrite lookup_insert_eq. simpl. apply lookup_insert_eq.
  - intros userId' month' Hne. by apply stored_upsert_ne.
Qed.

Lemma setIncome_get_witness :
  getIncome "u" "2024-01" afterSet
  = Replied 200 (Some (mkIncome 75000
      (<["miscellaneous" := 10000]> (<["salary" := 65000]> ∅)) 1)).
Proof.
  assert (Hset : setIncome 1 "u" (Some (JStr "2024-01")) (Some (JNum 75000))
                   (Some (JObj (<["salary" := JNum 65000]> ∅))) db0
                 = (Replied 201 (mkIncome 75000
                      (<["miscellaneous" := 10000]> (<["salary" := 65000]> ∅)) 1), afterSet))
    by reflexivity.
  destruct (setIncome_get_round_trip _ _ _ _ _ _ _ _ _ Hset) as (month & Hmonth & Hget & _).
  injection Hmonth as <-. exact Hget.
Defined.

(** What the body check of an update lets through. *)
Lemma checkUpdateBody_inr month reqTotal reqSources tot srcs :
  checkUpdateBody month reqTotal reqSources = inr (tot, srcs) →
  isMonth month = true
  ∧ (reqTotal = None ∧ tot = None
     ∨ ∃ t, reqTotal = Some (JNum t) ∧ tot = Some t ∧ 0 ≤ t)
  ∧ (reqSources = None ∧ srcs = None
     ∨ ∃ o, reqSources = Some (JObj o) ∧ srcs = Some (amounts o) ∧ sourcesOk o = true)
  ∧ (is_Some tot ∨ is_Some srcs).
Proof.
  unfold checkUpdateBody. intros Hbody.
  destruct (isMonth month); [| discriminate]. simpl in Hbody.
  destruct (negb (truthy reqTotal) && negb (truthy reqSources)); [discriminate |].
  destruct reqTotal as [[| | t | | |] |]; try discriminate.
  - destruct (Z.ltb_spec t 0) as [| Ht]; [discriminate |].
    destruct reqSources as [[| | | | | o] |]; try discriminate.
    + destruct (sourcesOk o) eqn:Hok; [| discriminate]. simpl in Hbody.
      injection Hbody as <- <-. split; [done |].
      split; [right; eauto |]. split; [right; eauto |]. left. eauto.
    + injection Hbody as <- <-. split; [done |].
      split; [right; eauto |]. split; [by left |]. left. eauto.
  - destruct reqSources as [[| | | | | o] |]; try discriminate.
    destruct (sourcesOk o) eqn:Hok; [| discriminate]. simpl in Hbody.
    injection Hbody as <- <-. split; [done |].
    split; [by left |]. split; [right; eauto |]. right. eauto.
Qed.

(** An early return of the body check is never a success. *)
Lemma checkUpdateBody_early_not_Replied month reqTotal reqSources early :
  checkUpdateBody month reqTotal reqSources = inl early →
  ∀ status record, early ≠ Replied status record.
Proof.
  unfold checkUpdateBody. intros Hbody status record ->.
  repeat case_match; discriminate.
Qed.

(** What a successful update looks like. *)
Lemma updateIncome_Replied now userId month reqTotal reqSources db status record db' :
  updateIncome now userId month reqTotal reqSources db = (Replied status record, db') →
  ∃ tot srcs existing,
    checkUpdateBody month reqTotal reqSources = inr (tot, srcs)
    ∧ stored db userId month = Some existing
    ∧ status = 200%nat
    ∧ record = mkIncome (default existing.(total) tot)
                 (withMiscellaneous (default existing.(sources) srcs)
                    (default existing.(total) tot)) now
    ∧ sumValues (default existing.(sources) srcs) ≤ default existing.(total) tot
    ∧ db' = <[userId := <[month := record]> (default ∅ (db !! userId))]> db.
Proof.
  unfold updateIncome, stored. intros Hupdate.
  destruct (checkUpdateBody month reqTotal reqSources) as [early | [tot srcs]] eqn:Hbody;
    [injection Hupdate as Hearly _;
     by destruct (checkUpdateBody_early_not_Replied _ _ _ _ Hbody status record) |].
  destruct (db !! userId ≫= (.!! month)) as [existing |] eqn:Hexisting; [| discriminate].
  destruct (checkUpdateBody_inr _ _ _ _ _ Hbody) as (_ & _ & _ & Hsome).
  exists tot, srcs, existing. split; [done |]. split; [done |].
  destruct tot as [t |], srcs as [s |]; simpl in *.
  - destruct (Z.ltb_spec t (sumValues s)) as [| Hle]; [discriminate |].
    by injection Hupdate as <- <- <-.
  - destruct (Z.ltb_spec t (sumValues existing.(sources))) as [| Hle]; [discriminate |].
    by injection Hupdate as <- <- <-.
  - destruct (Z.ltb_spec existing.(total) (sumValues s)) as [| Hle]; [discriminate |].
    by injection Hupdate as <- <- <-.
  - destruct Hsome as [[? ?] | [? ?]]; discriminate.
Qed.

(** X4. A successful update answers 200 for a month that had a record;
    the month's record then holds the total and the sources of the answer;
    the total is the stored one when the body has none; every other record
    is as it was. *)
Theorem updateIncome_success
    now userId month reqTotal reqSources db status record db' :
  updateIncome now userId month reqTotal reqSources db = (Replied status record, db') →
  status = 200%nat
  ∧ ∃ existing,
      stored db userId month = Some existing
      ∧ total <$> stored db' userId month = Some record.(total)
      ∧ sources <$> stored db' userId month = Some record.(sources)
      ∧ (reqTotal = None → record.(total) = existing.(total))
      ∧ ∀ userId' month', (userId', month') ≠ (userId, month) →
          stored db' userId' month' = stored db userId' month'.
Proof.
  intros Hupdate.
  destruct (updateIncome_Replied _ _ _ _ _ _ _ _ _ Hupdate)
    as (tot & srcs & existing & Hbody & Hexisting & -> & -> & Hle & ->).
  split; [done |]. exists existing. split; [done |].
  destruct (checkUpdateBody_inr _ _ _ _ _ Hbody) as (Hmonth & Htot & _ & _).
  rewrite stored_upsert_eq.
  split; [done |]. split; [done |]. split.
  - intros ->. destruct Htot as [[_ ->] | (t & [=] & _)]. done.
  - intros userId' month' Hne. by apply stored_upsert_ne.
Qed.

Lemma updateIncome_success_witness :
  total <$> stored (updateIncome 2 "u" "2024-01" None
                      (Some (JObj (<["salary" := JNum 70000]> ∅))) afterSet).2
              "u" "2024-01"
  = Some 75000.
Proof.
  assert (Hupdate :
    updateIncome 2 "u" "2024-01" None (Some (JObj (<["salary" := JNum 70000]> ∅))) afterSet
    = (Replied 200 (mkIncome 75000
         (<["miscellaneous" := 5000]> (<["salary" := 70000]> ∅)) 2),
       (updateIncome 2 "u" "2024-01" None
          (Some (JObj (<["salary" := JNum 70000]> ∅))) afterSet).2))
    by reflexivity.
  destruct (updateIncome_success _ _ _ _ _ _ _ _ _ Hupdate) as (_ & existing & _ & Htotal & _).
  exact Htotal.
Defined.

(** X6. An income write that does not succeed writes nothing: whatever
    [setIncome], [updateIncome] or [deleteIncome] answers other than a
    success, the collection is the one it was given. *)
Theorem income_rejections_write_nothing
    now userId month reqMonth reqTotal reqSources (db : IncomeDb) :
  (payloadOf (setIncome now userId reqMonth reqTotal reqSources db).1 = None →
     (setIncome now userId reqMonth reqTotal reqSources db).2 = db)
  ∧ (payloadOf (updateIncome now userId month reqTotal reqSources db).1 = None →
       (updateIncome now userId month reqTotal reqSources db).2 = db)
  ∧ (payloadOf (deleteIncome userId month db).1 = None →
       (deleteIncome userId month db).2 = db).
Proof.
  split; [| split].
  - intros Hnone.
    destruct (setIncome now userId reqMonth reqTotal reqSources db) as [out db'] eqn:Hset.
    by apply (setIncome_unchanged _ _ _ _ _ _ _ _ Hset).
  - unfold updateIncome.
    destruct (checkUpdateBody month reqTotal reqSources) as [early | [tot srcs]]; [done |].
    destruct (db !! userId ≫= (.!! month)) as [existing |]; [| done].
    destruct tot, srcs; simpl; repeat case_match; done.
  - unfold deleteIncome. repeat case_match; done.
Qed.

Lemma income_rejections_witness :
  (updateIncome 2 "u" "2024-01" (Some (JNum 10)) None afterSet).2 = afterSet.
Proof.
  refine (proj1 (proj2 (income_rejections_write_nothing 2 "u" "2024-01" None
                          (Some (JNum 10)) None afterSet)) _).
  reflexivity.
Defined.

(** X7. Once [deleteIncome] has succeeded, the month reads back as
    [null], no update of it can succeed until it is set again, and every
    other record is as it was. *)
Theorem deleteIncome_then_read_or_update userId month (db : IncomeDb) status deleted db' :
  deleteIncome userId month db = (Replied status deleted, db') →
  getIncome userId month db' = Replied 200 None
  ∧ (∀ now reqTotal reqSources,
       payloadOf (updateIncome now userId month reqTotal reqSources db').1 = None)
  ∧ ∀ userId' month', (userId', month') ≠ (userId, month) →
      stored db' userId' month' = stored db userId' month'.
Proof.
  unfold deleteIncome. intros Hdelete.
  destruct (isMonth month) eqn:Hmonth; [| discriminate]. simpl in Hdelete.
  destruct (db !! userId) as [income |] eqn:Hdoc; [| discriminate].
  inversion Hdelete; subst; clear Hdelete.
  assert (Hgone : stored (<[userId := delete month income]> db) userId month = None).
  { unfold stored. rewrite lookup_insert_eq. simpl. apply lookup_delete_eq. }
  split; [| split].
  - unfold getIncome. by rewrite Hmonth, Hgone.
  - intros now reqTotal reqSources. unfold updateIncome.
    destruct (checkUpdateBody month reqTotal reqSources) as [early | [tot srcs]] eqn:Hbody.
    + destruct early as [st rec | |]; [| done | done].
      by destruct (checkUpdateBody_early_not_Replied _ _ _ _ Hbody st rec).
    + unfold stored in Hgone. by rewrite Hgone.
  - intros userId' month' Hne. unfold stored.
    destruct (decide (userId' = userId)) as [-> | Huser].
    + rewrite lookup_insert_eq, Hdoc. simpl.
      by rewrite lookup_delete_ne by congruence.
    + by rewrite lookup_insert_ne.
Qed.

Lemma deleteIncome_then_read_witness :
  getIncome "u" "2024-01" (deleteIncome "u" "2024-01" afterSet).2 = Replied 200 None.
Proof.
  assert (Hdelete : deleteIncome "u" "2024-01" afterSet
                    = (Replied 200 IncomeRecordDeleted,
                       (deleteIncome "u" "2024-01" afterSet).2)) by reflexivity.
  exact (proj1 (deleteIncome_then_read_or_update _ _ _ _ _ _ Hdelete)).
Defined.

End IncomeMore.


(** * Further properties of the entries routes *)

Module EntriesMore.
Import Js Entries EntriesOps Scenarios MoreScenarios.

Lemma find_invalid_None (months : list string) :
  Forall (λ m, isMonth m = true) months →
  List.find (λ m, negb (isMonth m)) months = None.
Proof.
  induction 1 as [| m months Hm _ IH]; [done |].
  simpl. by rewrite Hm.
Qed.

(** The entries stored under a day, spelled out. *)
Lemma entriesAt_Some (db : EntriesDb) userId yearMonth day monthData dayData stored :
  db !! userId ≫= (.!! yearMonth) = Some monthData →
  monthData !! day = Some dayData →
  dayData.(entries) = Some stored →
  entriesAt db userId yearMonth day = stored.
Proof.
  intros Hmonth Hday Hentries. unfold entriesAt.
  by rewrite Hmonth; simpl; rewrite Hday; simpl; rewrite Hentries.
Qed.

Lemma elem_of_entriesAt (db : EntriesDb) userId yearMonth day entry :
  entry ∈ entriesAt db userId yearMonth day →
  ∃ monthData dayData,
    db !! userId ≫= (.!! yearMonth) = Some monthData
    ∧ monthData !! day = Some dayData
    ∧ dayData.(entries) = Some (entriesAt db userId yearMonth day).
Proof.
  unfold entriesAt.
  destruct (db !! userId ≫= (.!! yearMonth)) as [monthData |]; simpl;
    [| by intros ?%elem_of_nil].
  destruct (monthData !! day) as [dayData |] eqn:Hday; simpl;
    [| by intros ?%elem_of_nil].
  destruct dayData.(entries) as [stored |] eqn:Hentries; simpl;
    [| by intros ?%elem_of_nil].
  intros _. by exists monthData, dayData.
Qed.

Lemma elem_of_monthRows categories (db : EntriesDb) userId currentMonth entry d :
  mkDated entry d ∈ monthRows categories db userId currentMonth
  ↔ ∃ day, d = currentMonth +:+ "-" +:+ day
           ∧ entry ∈ entriesAt db userId currentMonth day
           ∧ (categories = [] ∨ entry.(code) ∈ categories).
Proof.
  unfold monthRows. split.
  - destruct (db !! userId ≫= (.!! currentMonth)) as [monthData |] eqn:Hmonth;
      [| by intros ?%elem_of_nil].
    intros ([day dayData] & Hrow & Hday%elem_of_map_to_list)%list_elem_of_bind.
    unfold dayRows in Hrow. simpl in Hrow.
    destruct dayData.(entries) as [stored |] eqn:Hentries; [| by apply elem_of_nil in Hrow].
    apply list_elem_of_fmap in Hrow as (entry' & [= <- ->] & Hin).
    exists day. split; [done |].
    rewrite (entriesAt_Some _ _ _ _ _ _ _ Hmonth Hday Hentries).
    case_bool_decide as Hcats.
    + split; [done | by left].
    + apply list_elem_of_filter in Hin as [Hcode Hin]. split; [done | by right].
  - intros (day & -> & Hin & Hcats).
    destruct (elem_of_entriesAt _ _ _ _ _ Hin) as (monthData & dayData & Hmonth & Hday & Hentries).
    rewrite Hmonth. apply list_elem_of_bind. exists (day, dayData).
    split; [| by apply elem_of_map_to_list].
    unfold dayRows. simpl. rewrite Hentries.
    apply list_elem_of_fmap. exists entry. split; [done |].
    case_bool_decide as Hempty; [done |].
    apply list_elem_of_filter. split; [| done].
    destruct Hcats as [? | ?]; done.
Qed.

(** X8. For a non-empty list of well-formed months the GET of entries
    answers 200 with exactly these rows: an entry stored under a day of a
    requested month, dated with that month and day, whose code is among the
    requested categories when any category is requested. *)
Theorem getEntries_rows userId category month (db : EntriesDb) :
  listOf month ≠ [] →
  Forall (λ m, isMonth m = true) (listOf month) →
  ∃ rows,
    getEntries userId category month db = Replied 200 rows
    ∧ ∀ entry d,
        mkDated entry d ∈ rows
        ↔ ∃ m day, m ∈ listOf month
                   ∧ d = m +:+ "-" +:+ day
                   ∧ entry ∈ entriesAt db userId m day
                   ∧ (listOf category = [] ∨ entry.(code) ∈ listOf category).
Proof.
  intros Hsome Hmonths. unfold getEntries.
  rewrite (find_invalid_None _ Hmonths).
  destruct (listOf month) as [| first others] eqn:Hlist; [done |].
  eexists. split; [reflexivity |].
  intros entry d. rewrite list_elem_of_bind. split.
  - intros (m & Hrow & Hm). apply elem_of_monthRows in Hrow as (day & ? & ? & ?).
    by exists m, day.
  - intros (m & day & Hm & ? & ? & ?). exists m. split; [| done].
    apply elem_of_monthRows. by exists day.
Qed.

Lemma getEntries_rows_witness :
  ∃ rows,
    getEntries "u" (QOne "FOD-GRO") (QMany ["2024-01"; "2024-03"]) yearEntries
    = Replied 200 rows
    ∧ (mkDated (spent "FOD-GRO" 300) "2024-01-15" ∈ rows
       ↔ ∃ m day, m ∈ ["2024-01"; "2024-03"]
                  ∧ "2024-01-15" = m +:+ "-" +:+ day
                  ∧ spent "FOD-GRO" 300 ∈ entriesAt yearEntries "u" m day
                  ∧ (["FOD-GRO"] = [] ∨ "FOD-GRO" ∈ ["FOD-GRO"])).
Proof.
  destruct (getEntries_rows "u" (QOne "FOD-GRO") (QMany ["2024-01"; "2024-03"]) yearEntries)
    as (rows & Hrows & Hin).
  - discriminate.
  - repeat constructor.
  - exists rows. split; [exact Hrows | apply (Hin (spent "FOD-GRO" 300) "2024-01-15")].
Defined.

Lemma entriesAt_setDay (db : EntriesDb) userId yearMonth day dayData :
  entriesAt (setDay userId yearMonth day dayData db) userId yearMonth day
  = default [] dayData.(entries).
Proof.
  unfold setDay, entriesAt.
  rewrite lookup_insert_eq. simpl. rewrite lookup_insert_eq. simpl.
  by rewrite lookup_insert_eq.
Qed.

Lemma entriesAt_setDay_ne (db : EntriesDb) userId yearMonth day dayData userId' yearMonth' day' :
  (userId', yearMonth', day') ≠ (userId, yearMonth, day) →
  entriesAt (setDay userId yearMonth day dayData db) userId' yearMonth' day'
  = entriesAt db userId' yearMonth' day'.
Proof.
  intros Hne. unfold setDay, entriesAt.
  destruct (decide (userId' = userId)) as [-> | Huser];
    [| by rewrite lookup_insert_ne].
  rewrite lookup_insert_eq. simpl.
  destruct (decide (yearMonth' = yearMonth)) as [-> | Hmonth].
  - rewrite lookup_insert_eq. simpl.
    rewrite lookup_insert_ne by congruence.
    destruct (db !! userId) as [doc |]; simpl; [| by rewrite lookup_empty].
    destruct (doc !! yearMonth); simpl; [done | by rewrite lookup_empty].
  - rewrite lookup_insert_ne by done.
    destruct (db !! userId) as [doc |]; simpl; [done | by rewrite lookup_empty].
Qed.

(** What a successful [deleteEntry] looks like. *)
Lemma deleteEntry_Replied userId date entryId (db : EntriesDb) status removed db' :
  deleteEntry userId date entryId db = (Replied status removed, db') →
  ∃ stored,
    isDate date = true ∧ entryId ≠ ""
    ∧ ((db !! userId ≫= (.!! substring 0 7 date)) ≫= (.!! substring 8 2 date)) ≫= entries
      = Some stored
    ∧ Exists (idMatches entryId) stored
    ∧ db' = setDay userId (substring 0 7 date) (substring 8 2 date)
              (mkDay (Some (filter (λ entry, ¬ idMatches entryId entry) stored))) db.
Proof.
  unfold deleteEntry. intros Hdelete.
  destruct (isDate date); [| discriminate]. simpl in Hdelete.
  destruct (String.eqb_spec entryId "") as [| Hid]; [discriminate |].
  destruct (((db !! userId ≫= (.!! substring 0 7 date)) ≫= (.!! substring 8 2 date)) ≫= entries)
    as [stored |] eqn:Hstored; [| discriminate].
  case_bool_decide as Hexists; [| discriminate].
  inversion Hdelete; subst. by exists stored.
Qed.

(** X9. A successful [deleteEntry] found at least one entry with that id
    under the date; afterwards the day holds exactly the entries that do not
    carry the id, in their order, and every other day of every user is as it
    was. *)
Theorem deleteEntry_removes_exactly_the_id
    userId date entryId (db : EntriesDb) status removed db' :
  deleteEntry userId date entryId db = (Replied status removed, db') →
  Exists (idMatches entryId) (entriesAt db userId (substring 0 7 date) (substring 8 2 date))
  ∧ entriesAt db' userId (substring 0 7 date) (substring 8 2 date)
    = filter (λ entry, ¬ idMatches entryId entry)
        (entriesAt db userId (substring 0 7 date) (substring 8 2 date))
  ∧ ∀ userId' yearMonth' day',
      (userId', yearMonth', day') ≠ (userId, substring 0 7 date, substring 8 2 date) →
      entriesAt db' userId' yearMonth' day' = entriesAt db userId' yearMonth' day'.
Proof.
  intros Hdelete.
  destruct (deleteEntry_Replied _ _ _ _ _ _ _ Hdelete)
    as (stored & _ & _ & Hstored & Hexists & ->).
  assert (Hat : entriesAt db userId (substring 0 7 date) (substring 8 2 date) = stored)
    by (unfold entriesAt; by rewrite Hstored).
  rewrite Hat. split; [done |]. split.
  - by rewrite entriesAt_setDay.
  - intros userId' yearMonth' day' Hne. by apply entriesAt_setDay_ne.
Qed.

(** X10. For a well-formed date and a non-empty id, when no entry stored
    under the date carries the id (in particular when the date has no
    entries at all), [deleteEntry] answers 404 and leaves the collection as
    it was. *)
Theorem deleteEntry_not_found userId date entryId (db : EntriesDb) :
  isDate date = true → entryId ≠ "" →
  Forall (λ entry, ¬ idMatches entryId entry)
    (entriesAt db userId (substring 0 7 date) (substring 8 2 date)) →
  statusOf (deleteEntry userId date entryId db).1 = Some 404%nat
  ∧ (deleteEntry userId date entryId db).2 = db.
Proof.
  intros Hdate Hid Hnone. unfold deleteEntry. rewrite Hdate. simpl.
  destruct (String.eqb_spec entryId "") as [| _]; [done |].
  unfold entriesAt in Hnone.
  destruct (((db !! userId ≫= (.!! substring 0 7 date)) ≫= (.!! substring 8 2 date)) ≫= entries)
    as [stored |]; [| done].
  simpl in Hnone. case_bool_decide as Hexists; [| done].
  apply Exists_exists in Hexists as (entry & Hin & Hmatch).
  rewrite Forall_forall in Hnone. by destruct (Hnone entry Hin).
Qed.

Lemma deleteEntry_removes_witness :
  entriesAt (deleteEntry "u" "2024-01-15" "a1" identified).2 "u" "2024-01" "15"
  = filter (λ entry, ¬ idMatches "a1" entry) (entriesAt identified "u" "2024-01" "15").
Proof.
  assert (Hdelete : deleteEntry "u" "2024-01-15" "a1" identified
                    = (Replied 200 EntryDeleted,
                       (deleteEntry "u" "2024-01-15" "a1" identified).2)) by reflexivity.
  exact (proj1 (proj2 (deleteEntry_removes_exactly_the_id _ _ _ _ _ _ _ Hdelete))).
Defined.

Lemma deleteEntry_not_found_witness :
  statusOf (deleteEntry "u" "2024-01-15" "zz" identified).1 = Some 404%nat
  ∧ (deleteEntry "u" "2024-01-15" "zz" identified).2 = identified.
Proof.
  apply deleteEntry_not_found; [reflexivity | discriminate |].
  repeat constructor; simpl; discriminate.
Defined.

(** A date splits into its month and its day. *)
Lemma isDate_parts date :
  isDate date = true →
  isMonth (substring 0 7 date) = true
  ∧ isMonth date = false
  ∧ substring 0 7 date +:+ "-" +:+ substring 8 2 date = date.
Proof.
  unfold isDate. intros Hdate.
  do 11 (destruct date as [| ? date]; simpl in Hdate; try discriminate).
  repeat match goal with H : _ && _ = true |- _ => apply andb_prop in H as [? ?] end.
  repeat match goal with H : Ascii.eqb _ _ = true |- _ => apply Ascii.eqb_eq in H as -> end.
  unfold isMonth. simpl. split; [| split; [done | reflexivity]].
  repeat match goal with H : isDigit _ = true |- _ => rewrite H; clear H end.
  reflexivity.
Qed.

Lemma isMonth_not_date date : isMonth date = true → isDate date = false.
Proof.
  unfold isMonth, isDate. intros Hmonth.
  do 8 (destruct date as [| ? date]; simpl in *; try discriminate). done.
Qed.

(** X11. For a day ([YYYY-MM-DD]) [deleteEntries] succeeds exactly when
    something is stored under that day; it then leaves the day empty and
    every other day as it was, and any other answer writes nothing. *)
Theorem deleteEntries_day userId date (db : EntriesDb) :
  isDate date = true →
  let yearMonth := substring 0 7 date in
  let day := substring 8 2 date in
  let result := deleteEntries userId date db in
  (payloadOf result.1 = Some EntriesDeleted
   ↔ is_Some ((db !! userId ≫= (.!! yearMonth)) ≫= (.!! day)))
  ∧ (payloadOf result.1 = Some EntriesDeleted →
       entriesAt result.2 userId yearMonth day = []
       ∧ ∀ userId' yearMonth' day', (userId', yearMonth', day') ≠ (userId, yearMonth, day) →
           entriesAt result.2 userId' yearMonth' day' = entriesAt db userId' yearMonth' day')
  ∧ (payloadOf result.1 = None → result.2 = db).
Proof.
  intros Hdate. cbv zeta. unfold deleteEntries. rewrite Hdate.
  destruct (db !! userId) as [doc |] eqn:Hdoc; simpl.
  2: { split; [split; [discriminate | by intros [? ?]] |]. split; [discriminate | done]. }
  destruct (doc !! substring 0 7 date) as [monthData |] eqn:Hmonth; simpl.
  2: { split; [split; [discriminate | by intros [? ?]] |]. split; [discriminate | done]. }
  destruct (monthData !! substring 8 2 date) as [dayData |] eqn:Hday; simpl.
  2: { split; [split; [discriminate | by intros [? ?]] |]. split; [discriminate | done]. }
  split; [split; [by eexists | done] |]. split; [| discriminate].
  intros _. split.
  - unfold entriesAt. rewrite lookup_insert_eq. simpl. rewrite lookup_insert_eq. simpl.
    by rewrite lookup_delete_eq.
  - intros userId' yearMonth' day' Hne. unfold entriesAt.
    destruct (decide (userId' = userId)) as [-> | Huser];
      [| by rewrite lookup_insert_ne].
    rewrite lookup_insert_eq, Hdoc. simpl.
    destruct (decide (yearMonth' = substring 0 7 date)) as [-> | Hym];
      [| by rewrite lookup_insert_ne].
    rewrite lookup_insert_eq, Hmonth. simpl.
    by rewrite lookup_delete_ne by congruence.
Qed.

Lemma deleteEntries_day_witness :
  entriesAt (deleteEntries "u" "2024-01-15" identified).2 "u" "2024-01" "15" = [].
Proof.
  destruct (deleteEntries_day "u" "2024-01-15" identified eq_refl) as (_ & Hafter & _).
  exact (proj1 (Hafter eq_refl)).
Defined.

(** X12. For a month ([YYYY-MM]) [deleteEntries] succeeds exactly when
    the user has something under that month; the month then has no entry
    left, the other months are as they were, and any other answer writes
    nothing. *)
Theorem deleteEntries_month userId month (db : EntriesDb) :
  isMonth month = true →
  let result := deleteEntries userId month db in
  (payloadOf result.1 = Some EntriesDeleted ↔ is_Some (db !! userId ≫= (.!! month)))
  ∧ (payloadOf result.1 = Some EntriesDeleted →
       monthEntries result.2 userId month = []
       ∧ ∀ userId' month', (userId', month') ≠ (userId, month) →
           monthEntries result.2 userId' month' = monthEntries db userId' month')
  ∧ (payloadOf result.1 = None → result.2 = db).
Proof.
  intros Hmonth. cbv zeta. unfold deleteEntries.
  rewrite (isMonth_not_date _ Hmonth), Hmonth.
  destruct (db !! userId) as [doc |] eqn:Hdoc; simpl.
  2: { split; [split; [discriminate | by intros [? ?]] |]. split; [discriminate | done]. }
  destruct (doc !! month) as [monthData |] eqn:Hdata; simpl.
  2: { split; [split; [discriminate | by intros [? ?]] |]. split; [discriminate | done]. }
  split; [split; [by eexists | done] |]. split; [| discriminate].
  intros _. split.
  - unfold monthEntries. rewrite lookup_insert_eq. simpl. by rewrite lookup_delete_eq.
  - intros userId' month' Hne. unfold monthEntries.
    destruct (decide (userId' = userId)) as [-> | Huser];
      [| by rewrite lookup_insert_ne].
    rewrite lookup_insert_eq, Hdoc. simpl.
    by rewrite lookup_delete_ne by congruence.
Qed.

Lemma deleteEntries_month_witness :
  monthEntries (deleteEntries "u" "2024-01" identified).2 "u" "2024-01" = [].
Proof.
  destruct (deleteEntries_month "u" "2024-01" identified eq_refl) as (_ & Hafter & _).
  exact (proj1 (Hafter eq_refl)).
Defined.

(** What a successful [addUserEntries] looks like. *)
Lemma addUserEntries_Replied userId reqEntries reqDate (db : EntriesDb) status added db' :
  addUserEntries userId reqEntries reqDate db = (Replied status added, db') →
  ∃ submitted date,
    reqEntries = Some (JArr submitted) ∧ reqDate = Some (JStr date)
    ∧ isDate date = true
    ∧ db' = pushEntries userId (substring 0 7 date) (substring 8 2 date)
              (omap toEntry submitted) db.
Proof.
  unfold addUserEntries. intros Hadd.
  destruct reqEntries as [[| | | | [| first others] |] |]; try discriminate.
  destruct reqDate as [[| | | date | |] |]; try discriminate.
  destruct (isDate date) eqn:Hdate; [| discriminate]. cbn [negb] in Hadd. cbv iota in Hadd.
  destruct (checkEntries (first :: others)); try discriminate.
  injection Hadd as _ <-. exists (first :: others), date.
  split; [done |]. split; [done |]. split; [done | reflexivity].
Qed.

(** X13. Entries accepted by [addUserEntries] are listed by the GET of
    their month, each under the date they were added for, and the DELETE of
    that date then succeeds. *)
Theorem added_entries_are_listed_and_deletable
    userId reqEntries reqDate (db : EntriesDb) status added db' :
  addUserEntries userId reqEntries reqDate db = (Replied status added, db') →
  ∃ submitted date,
    reqEntries = Some (JArr submitted) ∧ reqDate = Some (JStr date)
    ∧ (∃ rows, getEntries userId QAbsent (QOne (substring 0 7 date)) db' = Replied 200 rows
               ∧ ∀ entry, entry ∈ omap toEntry submitted → mkDated entry date ∈ rows)
    ∧ payloadOf (deleteEntries userId date db').1 = Some EntriesDeleted.
Proof.
  intros Hadd.
  destruct (addUserEntries_Replied _ _ _ _ _ _ _ Hadd)
    as (submitted & date & -> & -> & Hdate & ->).
  destruct (isDate_parts _ Hdate) as (Hmonth & _ & Hsplit).
  exists submitted, date. split; [done |]. split; [done |]. split.
  - unfold getEntries.
    assert (Hlist : listOf (QOne (substring 0 7 date)) = [substring 0 7 date]).
    { simpl. destruct (String.eqb_spec (substring 0 7 date) "") as [Hempty |]; [| done].
      by rewrite Hempty in Hmonth. }
    rewrite Hlist. simpl. rewrite Hmonth. simpl.
    eexists. split; [reflexivity |].
    intros entry Hin. rewrite app_nil_r.
    apply elem_of_monthRows. exists (substring 8 2 date).
    split; [symmetry; exact Hsplit |]. split; [| by left].
    rewrite EntriesProps.entriesAt_pushEntries. apply elem_of_app. by right.
  - unfold deleteEntries, pushEntries. rewrite Hdate.
    rewrite lookup_insert_eq. simpl. rewrite lookup_insert_eq. simpl.
    by rewrite lookup_insert_eq.
Qed.

Lemma added_entries_witness :
  ∃ submitted date,
    Some (JArr [refund]) = Some (JArr submitted)
    ∧ Some (JStr "2024-01-15") = Some (JStr date)
    ∧ (∃ rows,
         getEntries "u" QAbsent (QOne (substring 0 7 date))
           (addUserEntries "u" (Some (JArr [refund])) (Some (JStr "2024-01-15")) noEntries).2
         = Replied 200 rows
         ∧ ∀ entry, entry ∈ omap toEntry submitted → mkDated entry date ∈ rows)
    ∧ payloadOf (deleteEntries "u" date
        (addUserEntries "u" (Some (JArr [refund])) (Some (JStr "2024-01-15")) noEntries).2).1
      = Some EntriesDeleted.
Proof.
  apply (added_entries_are_listed_and_deletable "u" _ _ noEntries 201%nat EntriesAdded).
  reflexivity.
Defined.

End EntriesMore.


(** * Further properties of the budget routes *)

Module BudgetsMore.
Import Js Entries Budgets BudgetWrites JsProps Scenarios.

(** X14. [createBudget] takes any numeric total and any categories object
    for a well-formed month, whatever the allocations add up to; the budget
    it stores replaces the month's previous one wholesale, reads back
    unchanged, and the other months are as they were. *)
Theorem createBudget_stores_what_it_is_given
    userId month (total : Z) (categories : gmap string json) (db : StoredBudgets) :
  isMonth month = true →
  let result :=
    createBudget userId (Some (JStr month)) (Some (JNum total)) (Some (JObj categories)) db in
  result.1 = Replied 201 BudgetSet
  ∧ getBudget userId month result.2 = Replied 200 (Some (mkStored total (JObj categories)))
  ∧ getAllBudgets userId result.2
    = <[month := mkStored total (JObj categories)]> (getAllBudgets userId db)
  ∧ ∀ userId', userId' ≠ userId → getAllBudgets userId' result.2 = getAllBudgets userId' db.
Proof.
  intros Hmonth. cbv zeta. unfold createBudget, getBudget, getAllBudgets.
  rewrite Hmonth. simpl. split; [done |].
  rewrite lookup_insert_eq. simpl. rewrite lookup_insert_eq.
  split; [done |]. split; [done |].
  intros userId' Hne. by rewrite lookup_insert_ne.
Qed.

Lemma createBudget_witness :
  getBudget "u" "2024-01"
    (createBudget "u" (Some (JStr "2024-01")) (Some (JNum (-10)))
       (Some (JObj {["FOD" := JNum 500]})) ∅).2
  = Replied 200 (Some (mkStored (-10) (JObj {["FOD" := JNum 500]}))).
Proof.
  exact (proj1 (proj2 (createBudget_stores_what_it_is_given "u" "2024-01" (-10)
                         {["FOD" := JNum 500]} ∅ eq_refl))).
Defined.

End BudgetsMore.


(** * Further properties of the savings routes *)

Module SavingsMore.
Import Js Savings SavingsReads Scenarios.

Lemma sumOver_app {A} (f : A → Z) (xs ys : list A) :
  sumOver f (xs ++ ys) = sumOver f xs + sumOver f ys.
Proof.
  unfold sumOver. induction xs as [| x xs IH]; simpl; [done |].
  fold (fmap f (xs ++ ys)). fold (fmap f xs). lia.
Qed.

(** The yearly loop in closed form. *)
Lemma yearlyLoop_closed readIncome readExpenses months monthlyData inc exp :
  foldl (yearlyStep readIncome readExpenses) (monthlyData, inc, exp) months
  = (monthlyData ++ (lineOf readIncome readExpenses <$> months),
     inc + sumOver readIncome months,
     exp + sumOver readExpenses months).
Proof.
  revert monthlyData inc exp.
  induction months as [| month rest IH]; intros monthlyData inc exp.
  - simpl. rewrite app_nil_r. unfold sumOver. simpl. f_equal; [f_equal |]; lia.
  - change (foldl (yearlyStep readIncome readExpenses) (monthlyData, inc, exp) (month :: rest))
      with (foldl (yearlyStep readIncome readExpenses)
              (yearlyStep readIncome readExpenses (monthlyData, inc, exp) month) rest).
    unfold yearlyStep at 2. rewrite IH.
    rewrite <- app_assoc. unfold sumOver. simpl.
    fold (fmap readIncome rest). fold (fmap readExpenses rest).
    f_equal; [f_equal |]; lia.
Qed.

(** A successful yearly answer, spelled out. *)
Lemma yearlySavings_Replied (incomeDb : Income.IncomeDb) (entriesDb : Entries.EntriesDb)
    userId year :
  isYear year = true →
  ∃ r, yearlySavings incomeDb entriesDb userId year = Replied 200 r
       ∧ r.(monthlyBreakdown)
         = lineOf (getMonthlyIncome incomeDb userId)
                  (calculateMonthlyExpenses entriesDb userId) <$> monthsOf year
       ∧ r.(summary).(totalIncome) = sumOver (getMonthlyIncome incomeDb userId) (monthsOf year)
       ∧ r.(summary).(totalExpenses)
         = sumOver (calculateMonthlyExpenses entriesDb userId) (monthsOf year)
       ∧ r.(summary).(totalSavings)
         = r.(summary).(totalIncome) - r.(summary).(totalExpenses)
       ∧ reduce1 (λ best current,
                    if best.(savings) <? current.(savings) then current else best)
                 r.(monthlyBreakdown) = Some r.(insights).(bestSavingsMonth)
       ∧ reduce1 (λ worst current,
                    if current.(savings) <? worst.(savings) then current else worst)
                 r.(monthlyBreakdown) = Some r.(insights).(worstSavingsMonth).
Proof.
  intros Hyear. unfold yearlySavings, yearlyOver. rewrite Hyear. simpl negb. cbv iota.
  rewrite yearlyLoop_closed. rewrite app_nil_l.
  set (lines := lineOf _ _ <$> monthsOf year).
  assert (Hlen : List.length lines = 12%nat) by (unfold lines; by rewrite length_fmap).
  destruct lines as [| first rest] eqn:Hlines; [discriminate |].
  cbn [reduce1]. eexists. split; [reflexivity |]. simpl.
  repeat split; lia.
Qed.

Lemma monthsOf_isMonth year :
  isYear year = true → Forall (λ m, isMonth m = true) (monthsOf year).
Proof.
  unfold isYear. intros Hyear.
  do 5 (destruct year as [| ? year]; simpl in Hyear; try discriminate).
  repeat match goal with H : _ && _ = true |- _ => apply andb_prop in H as [? ?] end.
  unfold monthsOf. simpl.
  repeat constructor; unfold isMonth; simpl;
    repeat match goal with H : isDigit _ = true |- _ => rewrite H; clear H end;
    reflexivity.
Qed.

(** X18. The breakdown of the yearly answer has the twelve month keys
    of the year in order, and each of its lines carries the income, the
    expenses and the savings that the monthly route answers for that
    month. *)
Theorem yearly_lines_agree_with_monthly
    (incomeDb : Income.IncomeDb) (entriesDb : Entries.EntriesDb) userId year :
  isYear year = true →
  ∃ r, yearlySavings incomeDb entriesDb userId year = Replied 200 r
       ∧ month <$> r.(monthlyBreakdown) = monthsOf year
       ∧ ∀ line, line ∈ r.(monthlyBreakdown) →
           ∃ verdict,
             monthlySavings incomeDb entriesDb userId line.(month)
             = Replied 200 (mkMonthly line.(month) line.(income) line.(expenses)
                              line.(savings) verdict).
Proof.
  intros Hyear.
  destruct (yearlySavings_Replied incomeDb entriesDb userId year Hyear)
    as (r & Hr & Hlines & _).
  exists r. split; [done |]. rewrite Hlines. split.
  - rewrite <- list_fmap_compose. by rewrite list_fmap_id.
  - intros line (m & -> & Hm)%list_elem_of_fmap.
    pose proof (monthsOf_isMonth year Hyear) as Hmonths.
    rewrite Forall_forall in Hmonths.
    unfold monthlySavings, lineOf. simpl. rewrite (Hmonths m Hm). simpl. eauto.
Qed.

Lemma yearly_lines_witness :
  ∃ r, yearlySavings afterSet yearEntries "u" "2024" = Replied 200 r
       ∧ month <$> r.(monthlyBreakdown) = monthsOf "2024".
Proof.
  destruct (yearly_lines_agree_with_monthly afterSet yearEntries "u" "2024" eq_refl)
    as (r & Hr & Hmonths & _).
  by exists r.
Defined.

Lemma foldl_ext_all {A B} (f g : A → B → A) (start : A) (l : list B) :
  (∀ a b, f a b = g a b) → foldl f start l = foldl g start l.
Proof.
  intros Hfg. revert start. induction l as [| b l IH]; intros start; simpl; [done |].
  by rewrite Hfg, IH.
Qed.

(** The left fold that keeps the first element with the greatest key. *)
Lemma first_greatest {A} (key : A → Z) (first : A) (rest : list A) :
  let best := foldl (λ best current, if key best <? key current then current else best)
                    first rest in
  ∃ j, (first :: rest) !! j = Some best
       ∧ (∀ other, other ∈ first :: rest → key other ≤ key best)
       ∧ ∀ i other, (i < j)%nat → (first :: rest) !! i = Some other → key other < key best.
Proof.
  cbv zeta. induction rest as [| last rest IH] using rev_ind.
  - exists O. simpl. split; [done |]. split.
    + intros other ->%list_elem_of_singleton. lia.
    + intros i other Hi. lia.
  - rewrite foldl_app. simpl.
    destruct IH as (j & Hj & Hmax & Hfirst).
    set (best := foldl _ first rest) in *.
    destruct (Z.ltb_spec (key best) (key last)) as [Hlt | Hge].
    + exists (List.length (first :: rest)). split; [| split].
      * by rewrite app_comm_cons, list_lookup_middle.
      * intros other Hin. rewrite app_comm_cons in Hin.
        apply elem_of_app in Hin as [Hin | ->%list_elem_of_singleton]; [| lia].
        specialize (Hmax other Hin). lia.
      * intros i other Hi Hother. rewrite app_comm_cons in Hother.
        rewrite lookup_app_l in Hother by done.
        assert (key other ≤ key best) by (apply Hmax; by eapply list_elem_of_lookup_2).
        lia.
    + exists j. split; [| split].
      * rewrite app_comm_cons. rewrite lookup_app_l; [done |].
        by eapply lookup_lt_Some.
      * intros other Hin. rewrite app_comm_cons in Hin.
        apply elem_of_app in Hin as [Hin | ->%list_elem_of_singleton]; [by apply Hmax | lia].
      * intros i other Hi Hother. rewrite app_comm_cons in Hother.
        rewrite lookup_app_l in Hother.
        -- by eapply Hfirst.
        -- apply lookup_lt_Some in Hj. lia.
Qed.



(** The summary loop in closed form. *)
Ltac pairs_eq :=
  repeat match goal with |- (_, _) = (_, _) => apply pair_equal_spec; split end; lia.

Lemma summaryLoop_closed readIncome readExpenses months inc exp withIncome :
  foldl (summaryStep readIncome readExpenses) (inc, exp, withIncome) months
  = (inc + sumOver readIncome months,
     exp + sumOver readExpenses months,
     Nat.add withIncome (List.length (filter (λ m, 0 < readIncome m) months))).
Proof.
  revert inc exp withIncome.
  induction months as [| month rest IH]; intros inc exp withIncome.
  - unfold sumOver. simpl. pairs_eq.
  - change (foldl (summaryStep readIncome readExpenses) (inc, exp, withIncome) (month :: rest))
      with (foldl (summaryStep readIncome readExpenses)
              (summaryStep readIncome readExpenses (inc, exp, withIncome) month) rest).
    unfold summaryStep at 2. rewrite IH. unfold sumOver. simpl.
    fold (fmap readIncome rest). fold (fmap readExpenses rest).
    rewrite filter_cons.
    destruct (Z.ltb_spec 0 (readIncome month)) as [Hpos | Hnot].
    + rewrite decide_True by done. simpl. pairs_eq.
    + rewrite decide_False by lia. pairs_eq.
Qed.

Lemma sumOver_lines readIncome readExpenses (months : list string) :
  sumOver income (lineOf readIncome readExpenses <$> months) = sumOver readIncome months
  ∧ sumOver expenses (lineOf readIncome readExpenses <$> months) = sumOver readExpenses months
  ∧ List.length (filter (λ line, 0 < line.(income))
                   (lineOf readIncome readExpenses <$> months))
    = List.length (filter (λ m, 0 < readIncome m) months).
Proof.
  unfold sumOver. induction months as [| month rest (IH1 & IH2 & IH3)]; [done |].
  rewrite !fmap_cons, !filter_cons. simpl.
  fold (fmap readIncome rest). fold (fmap readExpenses rest).
  fold (fmap (lineOf readIncome readExpenses) rest).
  fold (fmap income (lineOf readIncome readExpenses <$> rest)).
  fold (fmap expenses (lineOf readIncome readExpenses <$> rest)).
  rewrite IH1, IH2.
  split; [done |]. split; [done |].
  destruct (decide (0 < readIncome month)); simpl; by rewrite IH3.
Qed.

Lemma summary_months year n :
  (n ≤ 12)%nat → monthKey year <$> seq 1 n = take n (monthsOf year).
Proof.
  intros Hn. unfold monthsOf. rewrite <- fmap_take, take_seq.
  by rewrite Nat.min_l.
Qed.

(** X20. The summary covers the first [currentMonth] months when the
    year is the current one and all twelve otherwise: its income and
    expenses totals and its count of months with income are those of that
    many leading lines of the yearly breakdown, its [totalSavings] is its
    [totalIncome] minus its [totalExpenses], and for any other year its
    totals are those of the yearly summary. *)
Theorem summary_covers_the_first_months_of_yearly
    currentYear currentMonth (incomeDb : Income.IncomeDb) (entriesDb : Entries.EntriesDb)
    userId year :
  isYear year = true →
  (1 ≤ currentMonth ≤ 12)%nat →
  ∃ s r,
    savingsSummary currentYear currentMonth incomeDb entriesDb userId year = Replied 200 s
    ∧ yearlySavings incomeDb entriesDb userId year = Replied 200 r
    ∧ s.(monthsCovered) = (if String.eqb year currentYear then currentMonth else 12%nat)
    ∧ s.(ys_totalIncome) = sumOver income (take s.(monthsCovered) r.(monthlyBreakdown))
    ∧ s.(ys_totalExpenses) = sumOver expenses (take s.(monthsCovered) r.(monthlyBreakdown))
    ∧ s.(ys_totalSavings) = s.(ys_totalIncome) - s.(ys_totalExpenses)
    ∧ s.(monthsWithIncome)
      = List.length (filter (λ line, 0 < line.(income))
                       (take s.(monthsCovered) r.(monthlyBreakdown)))
    ∧ (year ≠ currentYear →
         s.(ys_totalIncome) = r.(summary).(totalIncome)
         ∧ s.(ys_totalExpenses) = r.(summary).(totalExpenses)
         ∧ s.(ys_totalSavings) = r.(summary).(totalSavings)).
Proof.
  intros Hyear Hmonth.
  destruct (yearlySavings_Replied incomeDb entriesDb userId year Hyear)
    as (r & Hr & Hlines & Hinc & Hexp & Htotal & _).
  unfold savingsSummary. rewrite Hyear. simpl negb. cbv iota.
  set (n := if String.eqb year currentYear then currentMonth else 12%nat).
  assert (Hn : (n ≤ 12)%nat) by (unfold n; destruct (String.eqb year currentYear); lia).
  rewrite (summary_months year n Hn), summaryLoop_closed.
  eexists _, r. split; [reflexivity |]. split; [done |]. simpl.
  rewrite Hlines, <- fmap_take.
  destruct (sumOver_lines (getMonthlyIncome incomeDb userId)
              (calculateMonthlyExpenses entriesDb userId) (take n (monthsOf year)))
    as (-> & -> & ->).
  split; [done |]. split; [lia |]. split; [lia |]. split; [lia |]. split; [done |].
  intros Hne. apply String.eqb_neq in Hne. unfold n. rewrite Hne.
  rewrite take_ge by done.
  rewrite Hinc, Hexp. split; [lia |]. split; [lia |].
  assert (Hsav := Htotal). lia.
Qed.

Lemma summary_witness :
  ∃ s r,
    savingsSummary "2024" 3 afterSet yearEntries "u" "2024" = Replied 200 s
    ∧ yearlySavings afterSet yearEntries "u" "2024" = Replied 200 r
    ∧ s.(monthsCovered) = 3%nat
    ∧ s.(ys_totalIncome) = sumOver income (take s.(monthsCovered) r.(monthlyBreakdown)).
Proof.
  destruct (summary_covers_the_first_months_of_yearly "2024" 3 afterSet yearEntries "u" "2024")
    as (s & r & Hs & Hr & Hcovered & Hincome & _); [reflexivity | lia |].
  by exists s, r.
Defined.

End SavingsMore.


(** * Further properties of the chat handler *)

Module ChatMore.
Import Js Chat ChatTable Scenarios.

Lemma destructure_not_unsupported i first k :
  destructure i first k ≠ Raised "Unsupported intent".
Proof.
  unfold destructure. destruct i.(parameters); [discriminate |].
  simpl. discriminate.
Qed.

Lemma destructure_Sent i first k p :
  i.(parameters) = Some p → destructure i first k = Sent (k p).
Proof. intros Hp. unfold destructure. by rewrite Hp. Qed.

Ltac next_case :=
  match goal with
  | |- context [String.eqb ?name ?label] =>
      destruct (String.eqb_spec name label) as [Hname | ?]
  end.

(** X21. An intent is answered [Unsupported intent] exactly when its
    name is none of the eighteen labels of the [switch]; an intent with one
    of those names and with parameters sends a request. *)
Theorem start_supported_intents (i : Intent) :
  (start i = Raised "Unsupported intent" ↔ i.(intent) ∉ supportedIntents)
  ∧ (i.(intent) ∈ supportedIntents → is_Some i.(parameters) → ∃ r, start i = Sent r).
Proof.
  split; [split |].
  - intros Hstart Hin. revert Hstart. unfold start.
    repeat (next_case;
            [intros Hstart; by (apply destructure_not_unsupported in Hstart || discriminate) |]).
    intros _. apply list_elem_of_In in Hin. simpl in Hin. intuition congruence.
  - intros Hout. unfold start.
    repeat (next_case;
            [exfalso; apply Hout; rewrite Hname; apply list_elem_of_In; simpl; tauto |]).
    reflexivity.
  - intros Hin [p Hp]. unfold start.
    repeat (next_case; [rewrite ?(destructure_Sent _ _ _ _ Hp); eauto |]).
    apply list_elem_of_In in Hin. simpl in Hin. intuition congruence.
Qed.

Lemma start_supported_witness :
  ∃ r, start (mkIntent "deleteBudget" (Some {["month" := JStr "2024-01"]})) = Sent r.
Proof.
  apply start_supported_intents.
  - apply list_elem_of_In. simpl. tauto.
  - by eexists.
Defined.

Lemma launch_requests (intents : list Intent) (k : nat) :
  request <$> (launch k intents).2 = omap requestOf intents
  ∧ (List.length (launch k intents).1 + List.length (launch k intents).2
     = List.length intents)%nat.
Proof.
  revert k. induction intents as [| i rest IH]; intros k; [done |].
  cbn [launch omap list_omap]. unfold requestOf at 1.
  destruct (IH (S k)) as [Hrequests Hcount].
  destruct (launch (S k) rest) as [results pending].
  destruct (start i) as [r | message]; cbn [fst snd] in *.
  - rewrite fmap_cons, Hrequests. simpl. split; [done | lia].
  - simpl. split; [done | lia].
Qed.

(** X22. When the intents are dispatched, the handler sends at most one
    request per intent, in the order of the list: the requests sent are
    those of the intents that get as far as sending one. *)
Theorem chat_sends_one_request_per_dispatched_intent (env : Env) (message : string) :
  message ≠ "" →
  noValidIntent (env.(extractIntent) message) = false →
  (chat env (Some (JStr message))).2 = omap requestOf (env.(extractIntent) message)
  ∧ (List.length (chat env (Some (JStr message))).2
     ≤ List.length (env.(extractIntent) message))%nat.
Proof.
  intros Hmessage Hvalid. unfold chat.
  apply String.eqb_neq in Hmessage. rewrite Hmessage. cbv zeta. rewrite Hvalid.
  cbn [snd]. unfold requestsSent.
  destruct (launch_requests (env.(extractIntent) message) 0) as [Hrequests Hcount].
  split; [done |].
  rewrite length_fmap. lia.
Qed.

Lemma chat_requests_witness :
  (chat (answering budgetThenUnsupported alwaysResolves []) (Some (JStr "budget and receipt"))).2
  = omap requestOf budgetThenUnsupported.
Proof.
  refine (proj1 (chat_sends_one_request_per_dispatched_intent
                   (answering budgetThenUnsupported alwaysResolves [])
                   "budget and receipt" _ _)).
  - discriminate.
  - reflexivity.
Defined.

(** X23. The combined data has one key per record, [result1] to
    [result<N>], and [result<K+1>] holds the intent name and the data of the
    [K]-th record pushed. *)
Theorem combine_has_one_key_per_record (results : list Result) :
  size (combine results) = List.length results
  ∧ ∀ K, combine results !! resultKey K = combinedEntry <$> results !! K.
Proof.
  split; [| apply ChatProps.combine_lookup].
  induction results as [| last results IH] using rev_ind; [done |].
  rewrite ChatProps.combine_snoc, length_app. simpl.
  rewrite map_size_insert_None; [lia |].
  rewrite ChatProps.combine_lookup. by rewrite lookup_ge_None_2.
Qed.

(** X24. With a single intent other than [unknown], the answer is 200,
    its data is the data of that intent's record as it is (not wrapped under
    [result1]), its reply is the single-result phrasing of that data, and at
    most one request is sent. *)
Theorem chat_single_intent (env : Env) (message : string) (only : Intent) :
  message ≠ "" →
  env.(extractIntent) message = [only] →
  only.(intent) ≠ "unknown" →
  chat env (Some (JStr message))
  = (Answered (mkReply 200 None
                 (env.(generateResponse) message (recordOf env 0 only).(res_data))
                 (Some [only]) (Some (recordOf env 0 only).(res_data))),
     option_list (requestOf only)).
Proof.
  intros Hmessage Hintents Hknown. unfold chat.
  apply String.eqb_neq in Hmessage. rewrite Hmessage, Hintents. cbv zeta.
  apply String.eqb_neq in Hknown. cbn [noValidIntent]. rewrite Hknown.
  pose proof (ChatProps.collect_records env [only]) as Hrecords.
  simpl in Hrecords. apply Permutation_singleton_r in Hrecords. rewrite Hrecords.
  f_equal. unfold requestsSent.
  rewrite (proj1 (launch_requests [only] 0)). simpl.
  by destruct (requestOf only).
Qed.

Lemma chat_single_intent_witness :
  chat (answering [mkIntent "getAllIncome" None] alwaysResolves []) (Some (JStr "my income"))
  = (Answered (mkReply 200 None "one answer" (Some [mkIntent "getAllIncome" None])
                 (Some (JObj ∅))),
     [mkRequest GET IncomeRoute ∅]).
Proof.
  apply (chat_single_intent (answering [mkIntent "getAllIncome" None] alwaysResolves [])
           "my income" (mkIntent "getAllIncome" None)).
  - discriminate.
  - reflexivity.
  - discriminate.
Defined.

End ChatMore.


(** * Properties of the shopping routes *)

Module ShoppingProps.
Import Js Shopping.

Lemma insertByPrice_perm p (sorted : list Product) :
  insertByPrice p sorted ≡ₚ p :: sorted.
Proof.
  induction sorted as [| q rest IH]; simpl; [done |].
  destruct (q.(price) <? p.(price)); [| done].
  rewrite IH. apply Permutation_swap.
Qed.

Lemma sortByPrice_perm (products : list Product) : sortByPrice products ≡ₚ products.
Proof.
  unfold sortByPrice. induction products as [| p rest IH]; simpl; [done |].
  by rewrite insertByPrice_perm, IH.
Qed.

Lemma ascending_cons p (products : list Product) :
  ascending (p :: products)
  ↔ (∀ q, q ∈ products → p.(price) ≤ q.(price)) ∧ ascending products.
Proof.
  unfold ascending. split.
  - intros Hasc. split.
    + intros q [j Hj]%list_elem_of_lookup_1. apply (Hasc O (S j)); [lia | done | done].
    + intros i j x y Hij Hi Hj. apply (Hasc (S i) (S j)); [lia | done | done].
  - intros [Hhead Htail] i j x y Hij Hi Hj.
    destruct j as [| j]; [lia |]. simpl in Hj.
    destruct i as [| i]; simpl in Hi.
    + injection Hi as <-. apply Hhead. by eapply list_elem_of_lookup_2.
    + apply (Htail i j); [lia | done | done].
Qed.

Lemma insertByPrice_ascending p (sorted : list Product) :
  ascending sorted → ascending (insertByPrice p sorted).
Proof.
  induction sorted as [| q rest IH]; intros Hasc; simpl.
  - apply ascending_cons. split; [by intros ? ?%elem_of_nil | done].
  - apply ascending_cons in Hasc as [Hhead Htail].
    destruct (Z.ltb_spec q.(price) p.(price)) as [Hlt | Hge].
    + apply ascending_cons. split; [| by apply IH].
      intros x Hx. rewrite insertByPrice_perm in Hx.
      apply elem_of_cons in Hx as [-> | Hx]; [lia | by apply Hhead].
    + apply ascending_cons. split.
      * intros x [-> | Hx]%elem_of_cons; [done |]. specialize (Hhead x Hx). lia.
      * apply ascending_cons. by split.
Qed.

Lemma sortByPrice_ascending (products : list Product) : ascending (sortByPrice products).
Proof.
  unfold sortByPrice. induction products as [| p rest IH]; simpl.
  - intros i j p q _ Hi. by rewrite lookup_nil in Hi.
  - by apply insertByPrice_ascending.
Qed.

Lemma insertByPrice_pricedAt k p (sorted : list Product) :
  pricedAt k (insertByPrice p sorted) = pricedAt k (p :: sorted).
Proof.
  unfold pricedAt. induction sorted as [| q rest IH]; simpl; [done |].
  destruct (Z.ltb_spec q.(price) p.(price)) as [Hlt | Hge]; [| done].
  rewrite (filter_cons _ q), IH, !filter_cons.
  destruct (decide (q.(price) = k)), (decide (p.(price) = k)); try done. lia.
Qed.

(** Products at the same price keep their order. *)
Lemma sortByPrice_stable k (products : list Product) :
  pricedAt k (sortByPrice products) = pricedAt k products.
Proof.
  unfold sortByPrice. induction products as [| p rest IH]; simpl; [done |].
  rewrite insertByPrice_pricedAt. unfold pricedAt in *.
  by rewrite !filter_cons, IH.
Qed.

(** X25. A successful answer of [/cheapest] lists the five cheapest
    products of the page (all of them when there are fewer) by ascending
    price, products at the same price keeping their order on the page, and
    [count] is their number. *)
Theorem cheapest_returns_the_cheapest_five
    (env : Env) reqQuery reqCountry status found :
  cheapest env reqQuery reqCountry = Replied status found →
  ∃ products rest,
    env.(makeRequest) found.(found_query) found.(found_country) ≫= env.(parseContent)
    = Some products
    ∧ products ≡ₚ found.(offers) ++ rest
    ∧ ascending (found.(offers) ++ rest)
    ∧ (∀ k, pricedAt k (found.(offers) ++ rest) = pricedAt k products)
    ∧ found.(count) = List.length found.(offers)
    ∧ List.length found.(offers) = (5 `min` List.length products)%nat.
Proof.
  unfold cheapest. intros Hcheapest.
  destruct (checkSearch env reqQuery reqCountry) as [err | [query country]]; [discriminate |].
  destruct (env.(makeRequest) query country ≫= env.(parseContent))
    as [[| first others] |] eqn:Hproducts; try discriminate.
  injection Hcheapest as <- <-. cbn [found_query found_country offers count].
  exists (first :: others), (drop 5 (sortByPrice (first :: others))).
  split; [done |]. rewrite take_drop.
  split; [by rewrite sortByPrice_perm |].
  split; [apply sortByPrice_ascending |].
  split; [intros k; apply sortByPrice_stable |].
  split; [done |].
  rewrite length_take. f_equal.
  exact (Permutation_length (sortByPrice_perm (first :: others))).
Qed.

(** X26. [/search] never answers 500, and a successful answer lists the
    first five products of the page in page order (all of them when there
    are fewer, at least one), with [count] their number. *)
Theorem search_returns_the_first_five (env : Env) reqQuery reqCountry :
  statusOf (search env reqQuery reqCountry) ≠ Some 500%nat
  ∧ ∀ status found,
      search env reqQuery reqCountry = Replied status found →
      ∃ products,
        env.(makeRequest) found.(found_query) found.(found_country) ≫= env.(parseContent)
        = Some products
        ∧ found.(offers) = take 5 products
        ∧ found.(count) = List.length found.(offers)
        ∧ (1 ≤ found.(count) ≤ 5)%nat.
Proof.
  unfold search, getRelevantOffers.
  destruct (checkSearch env reqQuery reqCountry) as [err | [query country]];
    [split; [discriminate | discriminate] |].
  destruct (env.(makeRequest) query country ≫= env.(parseContent))
    as [[| first others] |] eqn:Hproducts;
    try (split; [discriminate | discriminate]).
  simpl. split; [discriminate |].
  intros status found [= <- <-]. exists (first :: others).
  cbn [found_query found_country offers count].
  split; [done |]. split; [done |]. split; [done |].
  pose proof (length_take others 4). simpl. lia.
Qed.

(** X27. Once the body is accepted, [/cheapest] answers 500 exactly when
    fetching or reading the page fails, whereas [/search] answers 404 for
    the same failure. *)
Theorem cheapest_reports_upstream_failure (env : Env) reqQuery reqCountry query country :
  checkSearch env reqQuery reqCountry = inr (query, country) →
  (cheapest env reqQuery reqCountry = Failed 500 FailedToSearch
   ↔ env.(makeRequest) query country ≫= env.(parseContent) = None)
  ∧ (env.(makeRequest) query country ≫= env.(parseContent) = None →
       search env reqQuery reqCountry = Failed 404 NoOffersFound).
Proof.
  intros Hcheck. unfold cheapest, search, getRelevantOffers. rewrite Hcheck.
  destruct (env.(makeRequest) query country ≫= env.(parseContent))
    as [[| first others] |]; (split; [split |]); done.
Qed.

Lemma cheapest_witness :
  ∃ products rest,
    Some [MoreScenarios.offer "Phone A" 300 "Amazon"; MoreScenarios.offer "Phone B" 100 "Croma";
          MoreScenarios.offer "Phone C" 200 "Flipkart"] = Some products
    ∧ products ≡ₚ [MoreScenarios.offer "Phone B" 100 "Croma";
                   MoreScenarios.offer "Phone C" 200 "Flipkart";
                   MoreScenarios.offer "Phone A" 300 "Amazon"] ++ rest.
Proof.
  assert (Hcheapest :
    cheapest MoreScenarios.threeOffers (Some (JStr "phone")) None
    = Replied 200 (mkFound "phone" "in"
        [MoreScenarios.offer "Phone B" 100 "Croma"; MoreScenarios.offer "Phone C" 200 "Flipkart";
         MoreScenarios.offer "Phone A" 300 "Amazon"] 3)) by reflexivity.
  destruct (cheapest_returns_the_cheapest_five _ _ _ _ _ Hcheapest)
    as (products & rest & Hproducts & Hperm & _).
  by exists products, rest.
Defined.

Lemma cheapest_upstream_witness :
  cheapest MoreScenarios.offline (Some (JStr "phone")) (Some (JStr "in"))
  = Failed 500 FailedToSearch.
Proof.
  apply (cheapest_reports_upstream_failure MoreScenarios.offline
           (Some (JStr "phone")) (Some (JStr "in")) "phone" "in"); reflexivity.
Defined.

End ShoppingProps.


(** * Properties of account deletion *)

Module AccountProps.
Import Js Account MoreScenarios.

Lemma cascade_lookup_ne (userId : string) (names : list string) (db : Database) name :
  name ∉ names →
  foldl (λ database n, alter (deleteMany userId) n database) db names !! name = db !! name.
Proof.
  revert db. induction names as [| n names IH]; intros db Hout; [done |].
  simpl. rewrite IH by (intros Hin; apply Hout; by right).
  apply lookup_alter_ne. intros ->. apply Hout. by left.
Qed.

Lemma cascade_lookup_in (userId : string) (names : list string) (db : Database) name docs :
  name ∈ names →
  foldl (λ database n, alter (deleteMany userId) n database) db names !! name = Some docs →
  Forall (λ doc, doc.(doc_userId) ≠ Some userId) docs.
Proof.
  revert db. induction names as [| n names IH]; intros db Hin Hdocs;
    [by apply elem_of_nil in Hin |].
  simpl in Hdocs.
  destruct (decide (name ∈ names)) as [Hlater | Hnot]; [by eapply IH |].
  apply elem_of_cons in Hin as [-> | Hin]; [| done].
  rewrite cascade_lookup_ne in Hdocs by done.
  rewrite lookup_alter_eq in Hdocs.
  destruct (db !! n) as [old |]; [| done].
  injection Hdocs as <-. apply Forall_forall.
  by intros doc [Howner _]%list_elem_of_filter.
Qed.

(** X28. Deleting an account leaves the collections of the finance
    routes ([user_entries], [user_budgets], [user_income],
    [budget_reassignments]) exactly as they were; in the four collections
    the cascade names, no document of the user is left. *)
Theorem deleteAccount_leaves_finance_data (userId : string) (db : Database) :
  (∀ name, name ∈ financeCollections → (deleteAccount userId db).2 !! name = db !! name)
  ∧ ∀ name docs, name ∈ cascade → (deleteAccount userId db).2 !! name = Some docs →
      Forall (λ doc, doc.(doc_userId) ≠ Some userId) docs.
Proof.
  unfold deleteAccount. cbn [snd]. split.
  - intros name Hin. rewrite cascade_lookup_ne.
    + apply lookup_alter_ne. intros <-.
      apply list_elem_of_In in Hin. simpl in Hin. intuition discriminate.
    + intros Hcascade. apply list_elem_of_In in Hin, Hcascade. simpl in Hin, Hcascade.
      intuition (subst; discriminate).
  - intros name docs Hin Hdocs. by eapply cascade_lookup_in.
Qed.

Lemma deleteAccount_witness :
  (deleteAccount "u" withFinanceData).2 !! "user_income" = withFinanceData !! "user_income".
Proof.
  apply (proj1 (deleteAccount_leaves_finance_data "u" withFinanceData)).
  apply list_elem_of_In. simpl. tauto.
Defined.

End AccountProps.
